(** * Ink2MD conversion orchestration: a shallow embedding and its properties

  The development follows the Python sources of the repository:

  - [conversion_pipeline.py]  (class [ConversionPipeline])
  - [database.py]             (class [DatabaseManager], table [conversion_history])
  - [models.py]               ([ConversionStatus], [ConversionRecord])
  - [config_manager.py]       ([ConfigManager.get_setting])
  - [prompt_manager.py]       ([PromptTemplate], [PromptManager])
  - [ai_services/base.py], [ai_services/factory.py],
    [ai_services/anthropic_service.py], [ai_services/ollama_service.py]
  - [app.py]                  (the [retry_conversion] route)

  Conventions of the embedding.

  - A Python [str] is a [string]: a sequence of 8-bit code points.
  - A Python exception is an [exn]: its class and the text [str(e)].
  - Code that can raise returns a [result]; code that also writes the
    conversion table or publishes progress runs in the monad [M], whose
    state survives a raised exception (as the effects of Python code do).
  - What the program obtains from outside (the PDF library, the clock, the
    network calls of the AI providers) is read from an environment record
    [Env]; every theorem quantifies over it.
  - The SQLite table is a finite map from [conversion_id] (a UNIQUE column)
    to rows. A method of [DatabaseManager] can raise a [sqlite3.Error]: the
    UNIQUE-constraint failure of INSERT, and whatever error the connection
    meets while it executes a statement (a locked database, a full disk),
    which the environment decides and which rolls the statement back. *)

From Stdlib Require Import ZArith List String Ascii Bool Lia QArith DecimalString.
From stdpp Require Import base gmap strings.
Import ListNotations.

Close Scope Q_scope.
Open Scope Z_scope.
Open Scope nat_scope.
Open Scope stdpp_scope.

#[global] Arguments String.append !s1 s2 : simpl nomatch.
Set Warnings "-register-all".

(** ** Python strings *)

Module PyStr.

Definition code (c : ascii) : nat := nat_of_ascii c.

(** [str.isspace] on one code point below 256. *)
Definition isspace (c : ascii) : bool :=
  let n := code c in
  ((9 <=? n) && (n <=? 13)) || ((28 <=? n) && (n <=? 32))
  || (n =? 133) || (n =? 160).

Fixpoint lstrip (s : string) : string :=
  match s with
  | EmptyString => EmptyString
  | String c s' => if isspace c then lstrip s' else s
  end.

(** [rstrip] removes the trailing run of white space: a character is kept
    when it is not white space or when something is kept after it. *)
Fixpoint rstrip (s : string) : string :=
  match s with
  | EmptyString => EmptyString
  | String c s' =>
      match rstrip s' with
      | EmptyString => if isspace c then EmptyString else String c EmptyString
      | r => String c r
      end
  end.

Definition strip (s : string) : string := rstrip (lstrip s).

(** [str.rstrip(chars)] for a one-character set. *)
Fixpoint rstrip_char (x : ascii) (s : string) : string :=
  match s with
  | EmptyString => EmptyString
  | String c s' =>
      match rstrip_char x s' with
      | EmptyString => if Ascii.eqb c x then EmptyString else String c EmptyString
      | r => String c r
      end
  end.

(** [str.lower] on code points below 256: A-Z and the Latin-1 capitals. *)
Definition lower_char (c : ascii) : ascii :=
  let n := code c in
  if ((65 <=? n) && (n <=? 90))
     || ((192 <=? n) && (n <=? 222) && negb (n =? 215))
  then ascii_of_nat (n + 32) else c.

Fixpoint lower (s : string) : string :=
  match s with
  | EmptyString => EmptyString
  | String c s' => String (lower_char c) (lower s')
  end.

Definition startswith (s p : string) : bool := String.prefix p s.

(** [needle in s] *)
Fixpoint contains (needle s : string) : bool :=
  String.prefix needle s
  || match s with
     | EmptyString => false
     | String _ s' => contains needle s'
     end.

(** [s.replace(old, new)]: the leftmost, non-overlapping occurrences of
    [old], scanned from the left.  [skip] counts the characters of a matched
    occurrence that are still to be dropped. *)
Fixpoint replace_from (old new : string) (skip : nat) (s : string) : string :=
  match s with
  | EmptyString => EmptyString
  | String c s' =>
      match skip with
      | S k => replace_from old new k s'
      | O =>
          if String.prefix old s
          then new +:+ replace_from old new (String.length old - 1) s'
          else String c (replace_from old new 0 s')
      end
  end.

(** With an empty [old], Python inserts [new] before every character and at
    the end. *)
Fixpoint interleave (new s : string) : string :=
  match s with
  | EmptyString => new
  | String c s' => new +:+ String c (interleave new s')
  end.

Definition replace (old new s : string) : string :=
  match old with
  | EmptyString => interleave new s
  | _ => replace_from old new 0 s
  end.

(** [sep.join(l)] *)
Definition join (sep : string) (l : list string) : string := String.concat sep l.

(** [s.split(sep)] for a one-character separator. *)
Fixpoint split_char (sep : ascii) (s : string) : list string :=
  match s with
  | EmptyString => [EmptyString]
  | String c s' =>
      if Ascii.eqb c sep then EmptyString :: split_char sep s'
      else match split_char sep s' with
           | [] => [String c EmptyString]
           | w :: ws => String c w :: ws
           end
  end.

(** [s.rfind(c)] for one character; [-1] when absent. *)
Fixpoint rfind_from (c : ascii) (i : Z) (s : string) (last : Z) : Z :=
  match s with
  | EmptyString => last
  | String a s' => rfind_from c (i + 1) s' (if Ascii.eqb a c then i else last)
  end.

Definition rfind (c : ascii) (s : string) : Z := rfind_from c 0 s (-1).

(** the slices [s[:n]] and [s[n:]] for [0 <= n] *)
Fixpoint take (n : nat) (s : string) : string :=
  match n, s with
  | S k, String c s' => String c (take k s')
  | _, _ => EmptyString
  end.

Fixpoint drop (n : nat) (s : string) : string :=
  match n, s with
  | S k, String _ s' => drop k s'
  | _, _ => s
  end.

Fixpoint all_chars (p : ascii -> bool) (s : string) : bool :=
  match s with
  | EmptyString => true
  | String c s' => p c && all_chars p s'
  end.

(** [os.path.splitext] (posixpath): the extension starts at the last dot of
    the last path component, unless that component has only leading dots
    before it. *)
Definition splitext (p : string) : string * string :=
  let sepIndex := rfind "/"%char p in
  let dotIndex := rfind "."%char p in
  if (sepIndex <? dotIndex)%Z then
    let filenameIndex := Z.to_nat (sepIndex + 1) in
    let d := Z.to_nat dotIndex in
    if all_chars (Ascii.eqb "."%char) (take (d - filenameIndex) (drop filenameIndex p))
    then (p, EmptyString)
    else (take d p, drop d p)
  else (p, EmptyString).

(** [str(n)] for a natural number. *)
Definition of_nat (n : nat) : string := NilEmpty.string_of_uint (Nat.to_uint n).

Definition is_digit_or_dash (c : ascii) : bool :=
  let n := code c in ((48 <=? n) && (n <=? 57)) || (n =? 45).

End PyStr.

(** ** Output naming (conversion_pipeline.py, step 6 of [convert_pdf]) *)

Module Naming.

(** the calendar date of [datetime.now()] *)
Record date := { year : nat; month : nat; day : nat }.

Definition pad2 (n : nat) : string :=
  if n <? 10 then "0" +:+ PyStr.of_nat n else PyStr.of_nat n.

(** [strftime('%Y-%m-%d')] *)
Definition strftime_Ymd (d : date) : string :=
  PyStr.of_nat (year d) +:+ "-" +:+ pad2 (month d) +:+ "-" +:+ pad2 (day d).

Definition DATE_TOKEN : string := "YYYY-MM-DD".
Definition NAME_TOKEN : string := "[OriginalFileName]".

(** [output_pattern.replace('YYYY-MM-DD', timestamp_str)
                   .replace('[OriginalFileName]', base_filename)] *)
Definition output_filename (output_pattern filename : string) (today : date) : string :=
  let timestamp_str := strftime_Ymd today in
  let base_filename := fst (PyStr.splitext filename) in
  PyStr.replace NAME_TOKEN base_filename
    (PyStr.replace DATE_TOKEN timestamp_str output_pattern).

(** The reading of the specification: one pass over the pattern in which
    each occurrence of either token is replaced and every other character
    is copied. *)
Fixpoint substitute_tokens_from (date_text name_text : string) (skip : nat)
         (s : string) : string :=
  match s with
  | EmptyString => EmptyString
  | String c s' =>
      match skip with
      | S k => substitute_tokens_from date_text name_text k s'
      | O =>
          if String.prefix DATE_TOKEN s
          then date_text +:+ substitute_tokens_from date_text name_text 9 s'
          else if String.prefix NAME_TOKEN s
          then name_text +:+ substitute_tokens_from date_text name_text 17 s'
          else String c (substitute_tokens_from date_text name_text 0 s')
      end
  end.

Definition substitute_tokens (date_text name_text pattern : string) : string :=
  substitute_tokens_from date_text name_text 0 pattern.

End Naming.

(** ** Python values, exceptions and results *)

Module Py.

(** The exception classes that the modelled code raises or catches by name;
    [IntegrityError] and [OperationalError] are the two subclasses of
    [sqlite3.Error] that appear; [OtherException] stands for any other
    subclass of [Exception]. *)
Inductive exc_class :=
| KeyError | ValueError | IndexError | AttributeError | TypeError
| NotImplementedError | RuntimeError | IntegrityError | OperationalError
| OtherException.

(** An exception: its class and [str(e)]. *)
Record exn := Exn { exn_class : exc_class; exn_str : string }.

Inductive result (A : Type) :=
| Ok (a : A)
| Raise (e : exn).
Arguments Ok {A} a.
Arguments Raise {A} e.

Definition rbind {A B} (r : result A) (k : A -> result B) : result B :=
  match r with
  | Ok a => k a
  | Raise e => Raise e
  end.

(** The values that the JSON configuration holds. A [float] is a rational:
    the code only compares configuration floats with integer literals and
    tests them for zero. *)
Inductive value :=
| VNone
| VBool (b : bool)
| VInt (n : Z)
| VFloat (q : Q)
| VStr (s : string)
| VDict (items : list (string * value)).

(** [bool(v)] *)
Definition truthy (v : value) : bool :=
  match v with
  | VNone => false
  | VBool b => b
  | VInt n => negb (n =? 0)%Z
  | VFloat q => negb (Qeq_bool q 0)
  | VStr s => negb (String.eqb s "")
  | VDict items => match items with [] => false | _ => true end
  end.

Definition as_number (v : value) : option Q :=
  match v with
  | VBool b => Some (if b then 1%Q else 0%Q)
  | VInt n => Some (inject_Z n)
  | VFloat q => Some q
  | _ => None
  end.

Definition type_name (v : value) : string :=
  match v with
  | VNone => "NoneType" | VBool _ => "bool" | VInt _ => "int"
  | VFloat _ => "float" | VStr _ => "str" | VDict _ => "dict"
  end.

(** [v < k] and [v > k] for an integer literal [k]: defined on numbers,
    [TypeError] otherwise. *)
Definition lt_int (v : value) (k : Z) : result bool :=
  match as_number v with
  | Some q => Ok (negb (Qle_bool (inject_Z k) q))
  | None => Raise (Exn TypeError
              ("'<' not supported between instances of '" +:+ type_name v +:+ "' and 'int'"))
  end.

Definition gt_int (v : value) (k : Z) : result bool :=
  match as_number v with
  | Some q => Ok (negb (Qle_bool q (inject_Z k)))
  | None => Raise (Exn TypeError
              ("'>' not supported between instances of '" +:+ type_name v +:+ "' and 'int'"))
  end.

(** [n < v] and [n >= v] for an integer [n] *)
Definition int_lt (n : Z) (v : value) : result bool :=
  match as_number v with
  | Some q => Ok (negb (Qle_bool q (inject_Z n)))
  | None => Raise (Exn TypeError
              ("'<' not supported between instances of 'int' and '" +:+ type_name v +:+ "'"))
  end.

Definition int_ge (n : Z) (v : value) : result bool :=
  match as_number v with
  | Some q => Ok (Qle_bool q (inject_Z n))
  | None => Raise (Exn TypeError
              ("'>=' not supported between instances of 'int' and '" +:+ type_name v +:+ "'"))
  end.

Definition no_attribute {A} (v : value) (attr : string) : result A :=
  Raise (Exn AttributeError
           ("'" +:+ type_name v +:+ "' object has no attribute '" +:+ attr +:+ "'")).

(** [v.lower()], [v.startswith(p)], [v.rstrip('/')]: methods of [str]. *)
Definition lower (v : value) : result string :=
  match v with
  | VStr s => Ok (PyStr.lower s)
  | _ => no_attribute v "lower"
  end.

Definition startswith (v : value) (p : string) : result bool :=
  match v with
  | VStr s => Ok (PyStr.startswith s p)
  | _ => no_attribute v "startswith"
  end.

Definition rstrip_slash (v : value) : result value :=
  match v with
  | VStr s => Ok (VStr (PyStr.rstrip_char "/"%char s))
  | _ => no_attribute v "rstrip"
  end.

(** [d.get(key, default)] on the items of a dict; a JSON object has each key
    once. *)
Fixpoint dict_get (items : list (string * value)) (key : string) (default : value) : value :=
  match items with
  | [] => default
  | (k, v) :: rest => if String.eqb k key then v else dict_get rest key default
  end.

Fixpoint dict_lookup (items : list (string * value)) (key : string) : option value :=
  match items with
  | [] => None
  | (k, v) :: rest => if String.eqb k key then Some v else dict_lookup rest key
  end.

End Py.

Export Py (result(..), exn(..), exc_class(..), value(..), exn_class, exn_str).

Declare Scope result_scope.
Delimit Scope result_scope with result.
Notation "x <- e ;; k" := (Py.rbind e (fun x => k))
  (at level 100, e at next level, right associativity) : result_scope.

(** ** config_manager.py *)

Module ConfigManager.

(** [get_setting]: walk the dot-separated path; a missing key ([KeyError])
    or a value that cannot be indexed by a string ([TypeError]) gives the
    default. *)
Fixpoint walk (keys : list string) (v : value) : option value :=
  match keys with
  | [] => Some v
  | key :: keys' =>
      match v with
      | VDict items =>
          match Py.dict_lookup items key with
          | Some v' => walk keys' v'
          | None => None
          end
      | _ => None
      end
  end.

Definition get_setting (config : value) (key_path : string) (default : value) : value :=
  match walk (PyStr.split_char "."%char key_path) config with
  | Some v => v
  | None => default
  end.

End ConfigManager.

(** ** models.py *)

Module Models.

Inductive ConversionStatus := QUEUED | PROCESSING | COMPLETED | FAILED | RETRYING.

Definition status_value (s : ConversionStatus) : string :=
  match s with
  | QUEUED => "queued" | PROCESSING => "processing" | COMPLETED => "completed"
  | FAILED => "failed" | RETRYING => "retrying"
  end.

(** [ConversionStatus(text)], which raises [ValueError] on any other text *)
Definition status_of_value (text : string) : option ConversionStatus :=
  if String.eqb text "queued" then Some QUEUED
  else if String.eqb text "processing" then Some PROCESSING
  else if String.eqb text "completed" then Some COMPLETED
  else if String.eqb text "failed" then Some FAILED
  else if String.eqb text "retrying" then Some RETRYING
  else None.

Definition status_eqb (a b : ConversionStatus) : bool :=
  String.eqb (status_value a) (status_value b).

(** The dataclass [ConversionRecord]; the auto-increment [id] and the three
    timestamps play no part in what follows and are left out. *)
Record ConversionRecord := {
  conversion_id : string;
  original_filename : string;
  output_filename : option string;
  status : ConversionStatus;
  htr_provider : option string;
  formatting_provider : option string;
  error_message : option string;
  raw_htr_output_path : option string;
  final_markdown_path : option string;
  retry_count : Z;
  file_size : option Z;
  page_count : option Z
}.

(** [is_retryable]: [status == FAILED and retry_count < max_retries]; the
    comparison is evaluated only for a failed record, and raises when
    [max_retries] is not a number. *)
Definition is_retryable (r : ConversionRecord) (max_retries : value) : result bool :=
  if status_eqb (status r) FAILED then Py.int_lt (retry_count r) max_retries
  else Ok false.

End Models.

(** ** database.py: the table [conversion_history] *)

Module Database.

(** One row, as [dict(row)] returns it. [status] is a TEXT column: it holds
    whatever text the callers write. *)
Record Row := {
  conversion_id : string;
  original_filename : string;
  output_filename : option string;
  status : string;
  htr_provider : option string;
  formatting_provider : option string;
  error_message : option string;
  raw_htr_output_path : option string;
  final_markdown_path : option string;
  retry_count : Z;
  file_size : option Z;
  page_count : option Z
}.

(** The table, keyed by the UNIQUE column [conversion_id]. *)
Abbreviation table := (gmap string Row).

(** The keyword arguments of [update_conversion_status]. *)
Inductive kwarg :=
| kw_output_filename (v : option string)
| kw_htr_provider (v : option string)
| kw_formatting_provider (v : option string)
| kw_raw_htr_output_path (v : option string)
| kw_final_markdown_path (v : option string)
| kw_retry_count (v : Z)
| kw_other (name : string).

Definition set_status (st : string) (r : Row) : Row :=
  {| conversion_id := conversion_id r; original_filename := original_filename r;
     output_filename := output_filename r; status := st;
     htr_provider := htr_provider r; formatting_provider := formatting_provider r;
     error_message := error_message r; raw_htr_output_path := raw_htr_output_path r;
     final_markdown_path := final_markdown_path r; retry_count := retry_count r;
     file_size := file_size r; page_count := page_count r |}.

Definition set_error_message (m : option string) (r : Row) : Row :=
  {| conversion_id := conversion_id r; original_filename := original_filename r;
     output_filename := output_filename r; status := status r;
     htr_provider := htr_provider r; formatting_provider := formatting_provider r;
     error_message := m; raw_htr_output_path := raw_htr_output_path r;
     final_markdown_path := final_markdown_path r; retry_count := retry_count r;
     file_size := file_size r; page_count := page_count r |}.

Definition set_retry_count (n : Z) (r : Row) : Row :=
  {| conversion_id := conversion_id r; original_filename := original_filename r;
     output_filename := output_filename r; status := status r;
     htr_provider := htr_provider r; formatting_provider := formatting_provider r;
     error_message := error_message r; raw_htr_output_path := raw_htr_output_path r;
     final_markdown_path := final_markdown_path r; retry_count := n;
     file_size := file_size r; page_count := page_count r |}.

(** The statements that the methods below execute on a connection. *)
Inductive statement :=
| INSERT (cid : string)
| UPDATE_status (cid st : string)
| UPDATE_retry_count (cid : string)
| SELECT (cid : string).

(** One [field = ?] of the dynamic UPDATE; a keyword outside the list of
    updatable columns is ignored. *)
Definition apply_kwarg (k : kwarg) (r : Row) : Row :=
  match k with
  | kw_output_filename v =>
      {| conversion_id := conversion_id r; original_filename := original_filename r;
         output_filename := v; status := status r;
         htr_provider := htr_provider r; formatting_provider := formatting_provider r;
         error_message := error_message r; raw_htr_output_path := raw_htr_output_path r;
         final_markdown_path := final_markdown_path r; retry_count := retry_count r;
         file_size := file_size r; page_count := page_count r |}
  | kw_htr_provider v =>
      {| conversion_id := conversion_id r; original_filename := original_filename r;
         output_filename := output_filename r; status := status r;
         htr_provider := v; formatting_provider := formatting_provider r;
         error_message := error_message r; raw_htr_output_path := raw_htr_output_path r;
         final_markdown_path := final_markdown_path r; retry_count := retry_count r;
         file_size := file_size r; page_count := page_count r |}
  | kw_formatting_provider v =>
      {| conversion_id := conversion_id r; original_filename := original_filename r;
         output_filename := output_filename r; status := status r;
         htr_provider := htr_provider r; formatting_provider := v;
         error_message := error_message r; raw_htr_output_path := raw_htr_output_path r;
         final_markdown_path := final_markdown_path r; retry_count := retry_count r;
         file_size := file_size r; page_count := page_count r |}
  | kw_raw_htr_output_path v =>
      {| conversion_id := conversion_id r; original_filename := original_filename r;
         output_filename := output_filename r; status := status r;
         htr_provider := htr_provider r; formatting_provider := formatting_provider r;
         error_message := error_message r; raw_htr_output_path := v;
         final_markdown_path := final_markdown_path r; retry_count := retry_count r;
         file_size := file_size r; page_count := page_count r |}
  | kw_final_markdown_path v =>
      {| conversion_id := conversion_id r; original_filename := original_filename r;
         output_filename := output_filename r; status := status r;
         htr_provider := htr_provider r; formatting_provider := formatting_provider r;
         error_message := error_message r; raw_htr_output_path := raw_htr_output_path r;
         final_markdown_path := v; retry_count := retry_count r;
         file_size := file_size r; page_count := page_count r |}
  | kw_retry_count n => set_retry_count n r
  | kw_other _ => r
  end.

(** The four methods below are given as what their statement does on a
    connection that works; the error that the connection itself can raise,
    and that each method logs and re-raises ([except sqlite3.Error: raise]),
    is added where the pipeline calls them ([Pipeline.db_create] and the
    like). *)

(** [create_conversion_record]: INSERT with the column defaults; a second
    row with the same [conversion_id] violates the UNIQUE constraint. The row
    id that the method returns is not used by its callers. *)
Definition create_conversion_record (db : table) (cid fname : string)
           (fsize pcount : option Z) : result unit * table :=
  match db !! cid with
  | Some _ =>
      (Raise (Exn IntegrityError
                "UNIQUE constraint failed: conversion_history.conversion_id"), db)
  | None =>
      (Ok tt,
       <[cid := {| conversion_id := cid; original_filename := fname;
                   output_filename := None; status := "queued";
                   htr_provider := None; formatting_provider := None;
                   error_message := None; raw_htr_output_path := None;
                   final_markdown_path := None; retry_count := 0%Z;
                   file_size := fsize; page_count := pcount |}]> db)
  end.

(** [update_conversion_status]: returns whether a row was affected. *)
Definition update_conversion_status (db : table) (cid st : string)
           (error_message : option string) (kwargs : list kwarg) : bool * table :=
  match db !! cid with
  | None => (false, db)
  | Some r =>
      let r1 := set_status st r in
      let r2 := match error_message with
                | Some m => set_error_message (Some m) r1
                | None => r1
                end in
      let r3 := fold_left (fun acc k => apply_kwarg k acc) kwargs r2 in
      (true, <[cid := r3]> db)
  end.

Definition get_conversion_by_id (db : table) (cid : string) : option Row := db !! cid.

(** [increment_retry_count] *)
Definition increment_retry_count (db : table) (cid : string) : bool * table :=
  match db !! cid with
  | None => (false, db)
  | Some r => (true, <[cid := set_retry_count (retry_count r + 1)%Z r]> db)
  end.

(** [ConversionRecord.from_dict(dict(row))] (models.py): an unknown status
    text becomes [QUEUED]. *)
Definition from_dict (r : Row) : Models.ConversionRecord :=
  {| Models.conversion_id := conversion_id r;
     Models.original_filename := original_filename r;
     Models.output_filename := output_filename r;
     Models.status := match Models.status_of_value (status r) with
                      | Some s => s
                      | None => Models.QUEUED
                      end;
     Models.htr_provider := htr_provider r;
     Models.formatting_provider := formatting_provider r;
     Models.error_message := error_message r;
     Models.raw_htr_output_path := raw_htr_output_path r;
     Models.final_markdown_path := final_markdown_path r;
     Models.retry_count := retry_count r;
     Models.file_size := file_size r;
     Models.page_count := page_count r |}.

End Database.

(** ** prompt_manager.py *)

Module PromptManager.

(** [DEFAULT_PROMPT_TEMPLATES] *)

Definition TEXT_htr_default : string :=
"Please analyze this image and extract all visible text, including handwritten text.

Focus on:
- Handwritten notes and annotations
- Printed text
- Mathematical equations or formulas
- Dates, numbers, and measurements
- Any other textual content

Please provide the extracted text in a clear, organized format. If the text appears to be structured (like notes, lists, or sections), please maintain that structure in your output.".

Definition TEXT_htr_academic : string :=
"Please extract all text from this academic document image with high precision.

Focus on:
- Academic content including citations, references, and footnotes
- Mathematical equations, formulas, and scientific notation
- Tables, figures, and captions
- Handwritten annotations and margin notes
- Preserve academic formatting and structure

Maintain the original academic structure and formatting in your text extraction.".

Definition TEXT_htr_handwritten : string :=
"Please focus specifically on extracting handwritten text from this image.

Pay special attention to:
- Handwritten notes, whether in cursive or print
- Personal annotations and comments
- Sketches or diagrams with text labels
- Margin notes and corrections
- Any handwritten mathematical expressions

Please be patient with unclear handwriting and provide your best interpretation while noting any uncertain text with [unclear] markers.".

Definition TEXT_htr_forms : string :=
"Please extract text from this form or structured document.

Focus on:
- Form field labels and their corresponding values
- Checkboxes and their status (checked/unchecked)
- Tables with headers and data
- Signatures and handwritten entries
- Document structure and layout

Organize the extracted information to preserve the form's logical structure.".

Definition TEXT_formatting_clean : string :=
"Please format the following text into clean, well-structured markdown.

Focus on:
- Creating appropriate headings and structure
- Organizing content logically
- Formatting lists, emphasis, and other elements properly
- Improving readability while maintaining the original meaning
- Using proper markdown syntax
- Ensuring consistent formatting throughout

Text to format:
{content}".

Definition TEXT_formatting_academic : string :=
"Please format the following text into clean, well-structured markdown suitable for academic or professional documents.

Focus on:
- Creating clear headings and subheadings with proper hierarchy
- Organizing content into logical sections
- Formatting lists, equations, and citations properly
- Maintaining academic tone and structure
- Adding appropriate emphasis and formatting
- Preserving references and footnotes
- Using proper markdown syntax for academic content

Text to format:
{content}".

Definition TEXT_formatting_notes : string :=
"Please format the following text into clean, organized markdown notes.

Focus on:
- Creating clear section headers
- Organizing bullet points and lists
- Highlighting key information with appropriate emphasis
- Maintaining the original meaning and structure
- Making the content easy to read and reference
- Using consistent formatting for similar elements

Text to format:
{content}".

Definition TEXT_vlm_direct : string :=
"Please convert this document page directly into clean, well-structured markdown.

Analyze the entire page and:
- Extract all visible text accurately
- Preserve the document's structure and hierarchy
- Format headings, lists, and emphasis appropriately
- Handle tables, figures, and captions properly
- Maintain the logical flow of information
- Use proper markdown syntax throughout

Provide only the markdown content without additional commentary.".

Definition TEXT_vlm_academic : string :=
"Please convert this academic document page into properly formatted markdown.

Analyze the page and:
- Extract all text including citations, references, and footnotes
- Preserve academic structure and hierarchy
- Format mathematical equations and scientific notation
- Handle tables, figures, and captions appropriately
- Maintain proper academic formatting conventions
- Use appropriate markdown syntax for academic content

Provide clean, academic-quality markdown output.".

Definition TEXT_vlm_handwritten : string :=
"Please convert this handwritten document into clean markdown format.

Carefully analyze the handwriting and:
- Extract all handwritten text with high accuracy
- Interpret unclear handwriting to the best of your ability
- Preserve the structure and organization of the notes
- Format lists, headings, and emphasis appropriately
- Note any uncertain text with [unclear] markers
- Maintain the logical flow of the handwritten content

Provide well-structured markdown that accurately represents the handwritten content.".

Definition DEFAULT_PROMPT_TEMPLATES : list (string * string) :=
  [("htr_default", TEXT_htr_default);
("htr_academic", TEXT_htr_academic);
("htr_handwritten", TEXT_htr_handwritten);
("htr_forms", TEXT_htr_forms);
("formatting_clean", TEXT_formatting_clean);
("formatting_academic", TEXT_formatting_academic);
("formatting_notes", TEXT_formatting_notes);
("vlm_direct", TEXT_vlm_direct);
("vlm_academic", TEXT_vlm_academic);
("vlm_handwritten", TEXT_vlm_handwritten)].

(** The keyword arguments of a rendering: each variable with the text that
    [format(value, '')] gives for its value. *)
Abbreviation kwargs := (list (string * string)).

Fixpoint kwargs_get (kw : kwargs) (key : string) : option string :=
  match kw with
  | [] => None
  | (k, v) :: rest => if String.eqb k key then Some v else kwargs_get rest key
  end.

Record PromptTemplate := {
  name : string;
  content : string;
  category : string
}.

(** [_get_category_from_name] *)
Definition _get_category_from_name (name : string) : string :=
  if PyStr.startswith name "htr_" then "htr"
  else if PyStr.startswith name "formatting_" then "formatting"
  else if PyStr.startswith name "vlm_" then "vlm"
  else "general".

(** *** [str.format] with keyword arguments only

    The format string is scanned from the left. [{{] and [}}] are literal
    braces; a replacement field runs to its matching closing brace. A field
    that is a plain name is looked up among the keyword arguments; an empty
    or numeric field is positional, and there are no positional arguments.
    Every other field (attribute or index access, conversion, format
    specification) is rendered by [complex_field], about which nothing is
    assumed. *)

Definition is_digit (c : ascii) : bool :=
  let n := PyStr.code c in (48 <=? n) && (n <=? 57).

Definition is_plain (c : ascii) : bool :=
  negb (existsb (Ascii.eqb c)
          ["{"%char; "}"%char; "["%char; "]"%char; "."%char; "!"%char; ":"%char]).

Fixpoint drop_zeros (s : string) : string :=
  match s with
  | String c (String _ _ as s') => if Ascii.eqb c "0"%char then drop_zeros s' else s
  | _ => s
  end.

Inductive scan_state :=
| InText
| InField (depth : nat) (field : string).

Section Format.

Variable complex_field : string -> kwargs -> result string.

Definition resolve_field (field : string) (kw : kwargs) : result string :=
  if PyStr.all_chars is_plain field then
    if PyStr.all_chars is_digit field then
      Raise (Exn IndexError
               ("Replacement index "
                +:+ (match field with EmptyString => "0" | _ => drop_zeros field end)
                +:+ " out of range for positional args tuple"))
    else
      match kwargs_get kw field with
      | Some text => Ok text
      | None => Raise (Exn KeyError ("'" +:+ field +:+ "'"))
      end
  else complex_field field kw.

Definition emit (c : ascii) (r : result string) : result string :=
  Py.rbind r (fun rest => Ok (String c rest)).

Fixpoint format_from (kw : kwargs) (st : scan_state) (s : string) : result string :=
  match st, s with
  | InText, EmptyString => Ok EmptyString
  | InText, String c s' =>
      if Ascii.eqb c "{"%char then
        match s' with
        | EmptyString => Raise (Exn ValueError "Single '{' encountered in format string")
        | String c' s'' =>
            if Ascii.eqb c' "{"%char then emit "{"%char (format_from kw InText s'')
            else format_from kw (InField 0 EmptyString) s'
        end
      else if Ascii.eqb c "}"%char then
        match s' with
        | String c' s'' =>
            if Ascii.eqb c' "}"%char then emit "}"%char (format_from kw InText s'')
            else Raise (Exn ValueError "Single '}' encountered in format string")
        | EmptyString => Raise (Exn ValueError "Single '}' encountered in format string")
        end
      else emit c (format_from kw InText s')
  | InField _ _, EmptyString =>
      Raise (Exn ValueError "expected '}' before end of string")
  | InField depth field, String c s' =>
      if Ascii.eqb c "}"%char then
        match depth with
        | O =>
            Py.rbind (resolve_field field kw) (fun text =>
            Py.rbind (format_from kw InText s') (fun rest =>
            Ok (text +:+ rest)))
        | S d => format_from kw (InField d (field +:+ String c EmptyString)) s'
        end
      else if Ascii.eqb c "{"%char then
        format_from kw (InField (S depth) (field +:+ String c EmptyString)) s'
      else format_from kw (InField depth (field +:+ String c EmptyString)) s'
  end.

Definition str_format (fmt : string) (kw : kwargs) : result string :=
  format_from kw InText fmt.

(** [PromptTemplate.format]: the rendering, and the warnings it logs. *)
Definition format (t : PromptTemplate) (kw : kwargs) : result string * list string :=
  match str_format (content t) kw with
  | Ok text => (Ok text, [])
  | Raise e =>
      match exn_class e with
      | KeyError =>
          (Ok (content t),
           ["Missing variable " +:+ exn_str e +:+ " for template " +:+ name t])
      | _ => (Raise e, [])
      end
  end.

(** [_get_fallback_prompt] *)
Definition _get_fallback_prompt (template_name : string) (variables : kwargs)
  : result string :=
  if PyStr.startswith template_name "htr_" then Ok TEXT_htr_default
  else if PyStr.startswith template_name "formatting_" then
    let content :=
      match kwargs_get variables "content" with
      | Some c => c
      | None => "[No content provided]"
      end in
    str_format TEXT_formatting_clean [("content", content)]
  else if PyStr.startswith template_name "vlm_" then Ok TEXT_vlm_direct
  else Ok "Please process this content appropriately.".

(** [get_prompt] *)
Definition get_prompt (templates : gmap string PromptTemplate)
           (template_name : string) (variables : kwargs) : result string * list string :=
  match templates !! template_name with
  | None =>
      (_get_fallback_prompt template_name variables,
       ["Template '" +:+ template_name +:+ "' not found, using default"])
  | Some template => format template variables
  end.

End Format.

(** The templates of a manager that found no custom template file. *)
Definition default_templates : gmap string PromptTemplate :=
  list_to_map
    (map (fun '(n, c) => (n, {| name := n; content := c;
                                  category := _get_category_from_name n |}))
         DEFAULT_PROMPT_TEMPLATES).

(** The reading of the specification: render what resolves and leave an
    unresolved placeholder in place. It scans like [format_from] and differs
    only at a plain name that has no value. *)
Fixpoint render_resolvable_from (kw : kwargs) (st : scan_state) (s : string) : string :=
  match st, s with
  | InText, EmptyString => EmptyString
  | InText, String c s' =>
      if Ascii.eqb c "{"%char then render_resolvable_from kw (InField 0 EmptyString) s'
      else String c (render_resolvable_from kw InText s')
  | InField _ field, EmptyString => String "{"%char field
  | InField depth field, String c s' =>
      if Ascii.eqb c "}"%char then
        match kwargs_get kw field with
        | Some text => text +:+ render_resolvable_from kw InText s'
        | None => String "{"%char (field +:+ String "}"%char
                                     (render_resolvable_from kw InText s'))
        end
      else render_resolvable_from kw (InField depth (field +:+ String c EmptyString)) s'
  end.

Definition render_resolvable (fmt : string) (kw : kwargs) : string :=
  render_resolvable_from kw InText fmt.

End PromptManager.

(** ** ai_services/base.py, anthropic_service.py, ollama_service.py *)

Module AIServices.

Local Open Scope result_scope.

Inductive AIServiceCapability :=
| HTR | FORMATTING | LAYOUT_ANALYSIS | VLM_DIRECT | DOCUMENT_INTELLIGENCE.

Definition capability_value (c : AIServiceCapability) : string :=
  match c with
  | HTR => "htr" | FORMATTING => "formatting" | LAYOUT_ANALYSIS => "layout_analysis"
  | VLM_DIRECT => "vlm_direct" | DOCUMENT_INTELLIGENCE => "document_intelligence"
  end.

Definition capability_eqb (a b : AIServiceCapability) : bool :=
  String.eqb (capability_value a) (capability_value b).

(** What callers pass to [supports_capability]: a member of the enumeration
    (anthropic_service.py, factory.py) or a [str] (conversion_pipeline.py). *)
Inductive capability_arg :=
| Member (c : AIServiceCapability)
| Text (s : string).

Inductive service_class := MockAIService | AnthropicService | OllamaService.

Abbreviation config := (list (string * value)).

(** An instance of a subclass of [AIServiceInterface]. An attribute that a
    class does not set is [VNone]. *)
Record AIService := {
  class_of : service_class;
  provider_id : string;
  service_config : config;
  display_name : value;
  enabled : value;
  is_htr_capable : value;
  is_formatting_capable : value;
  api_key : value;
  model : value;
  max_tokens : value;
  temperature : value;
  api_base_url : value;
  timeout : value;
  num_predict : value
}.

(** [get_capabilities] *)
Definition get_capabilities (s : AIService) : list AIServiceCapability :=
  (if Py.truthy (is_htr_capable s) then [HTR] else [])
  ++ (if Py.truthy (is_formatting_capable s) then [FORMATTING] else [])
  ++ (if Py.truthy (Py.dict_get (service_config s) "is_layout_capable" (VBool false))
      then [LAYOUT_ANALYSIS] else [])
  ++ (if Py.truthy (Py.dict_get (service_config s) "is_vlm_capable" (VBool false))
      then [VLM_DIRECT] else [])
  ++ (if Py.truthy (Py.dict_get (service_config s) "is_document_intelligence_capable"
                      (VBool false))
      then [DOCUMENT_INTELLIGENCE] else []).

(** [capability in self.get_capabilities()]: a member of a plain [Enum] is
    equal to itself only, so a [str] is in no list of members. *)
Definition arg_eqb (a : capability_arg) (c : AIServiceCapability) : bool :=
  match a with
  | Member c' => capability_eqb c' c
  | Text _ => false
  end.

Definition supports_capability (s : AIService) (capability : capability_arg) : bool :=
  existsb (arg_eqb capability) (get_capabilities s).

Abbreviation errors := (list (string * string)).

(** [AIServiceInterface.validate_config]. The result is a dict of which the
    callers test only whether it is empty; it is kept as the list of the
    assignments made. *)
Definition base_validate_config (s : AIService) : errors :=
  (if String.eqb (provider_id s) ""
   then [("provider_id", "Provider ID is required")] else [])
  ++ (if negb (Py.truthy (display_name s))
      then [("display_name", "Display name is required")] else [])
  ++ (if negb (Py.truthy (is_htr_capable s)) && negb (Py.truthy (is_formatting_capable s))
      then [("capabilities", "Service must support at least one capability")] else []).

(** [v and (v < lo or v > hi)] *)
Definition out_of_range (v : value) (lo hi : Z) : result bool :=
  if Py.truthy v then
    below <- Py.lt_int v lo ;;
    if below : bool then Ok true else Py.gt_int v hi
  else Ok false.

(** [AnthropicService.validate_config] *)
Definition anthropic_validate_config (s : AIService) : result errors :=
  let e0 := base_validate_config s in
  let e1 := if negb (Py.truthy (api_key s))
            then [("api_key", "API key is required for Anthropic service")] else [] in
  let e2 := if negb (Py.truthy (model s))
            then [("model", "Model is required for Anthropic service")] else [] in
  e3 <- (if Py.truthy (model s) then
           p3 <- Py.startswith (model s) "claude-3" ;;
           known <- (if p3 : bool then Ok true else Py.startswith (model s) "claude-2") ;;
           Ok (if known : bool then [] else [("model", "Invalid Anthropic model")])
         else Ok []) ;;
  b4 <- out_of_range (max_tokens s) 1 8192 ;;
  b5 <- out_of_range (temperature s) 0 1 ;;
  Ok (e0 ++ e1 ++ e2 ++ e3
      ++ (if b4 : bool then [("max_tokens", "max_tokens must be between 1 and 8192")] else [])
      ++ (if b5 : bool then [("temperature", "temperature must be between 0 and 1")] else [])).

(** [OllamaService.validate_config] *)
Definition ollama_validate_config (s : AIService) : result errors :=
  let e0 := base_validate_config s in
  let e1 := if negb (Py.truthy (api_base_url s))
            then [("api_base_url", "API base URL is required for Ollama service")] else [] in
  let e2 := if negb (Py.truthy (model s))
            then [("model", "Model is required for Ollama service")] else [] in
  e3 <- (if Py.truthy (api_base_url s) then
           h <- Py.startswith (api_base_url s) "http://" ;;
           ok <- (if h : bool then Ok true else Py.startswith (api_base_url s) "https://") ;;
           Ok (if ok : bool then []
               else [("api_base_url", "API base URL must start with http:// or https://")])
         else Ok []) ;;
  b4 <- out_of_range (timeout s) 1 600 ;;
  b5 <- out_of_range (temperature s) 0 2 ;;
  b6 <- out_of_range (num_predict s) 1 8192 ;;
  Ok (e0 ++ e1 ++ e2 ++ e3
      ++ (if b4 : bool then [("timeout", "timeout must be between 1 and 600 seconds")] else [])
      ++ (if b5 : bool then [("temperature", "temperature must be between 0 and 2")] else [])
      ++ (if b6 : bool then [("num_predict", "num_predict must be between 1 and 8192")] else [])).

(** [service.validate_config()], dispatched on the class *)
Definition validate_config (s : AIService) : result errors :=
  match class_of s with
  | MockAIService => Ok (base_validate_config s)
  | AnthropicService => anthropic_validate_config s
  | OllamaService => ollama_validate_config s
  end.

(** [validate_service_config] *)
Definition validate_service_config (cfg : config) : result errors :=
  let e0 := (if negb (Py.truthy (Py.dict_get cfg "display_name" VNone))
             then [("display_name", "display_name is required")] else [])
            ++ (if negb (Py.truthy (Py.dict_get cfg "type" VNone))
                then [("type", "type is required")] else []) in
  service_type <- Py.lower (Py.dict_get cfg "type" (VStr "")) ;;
  let e1 :=
    if String.eqb service_type "anthropic" then
      (if negb (Py.truthy (Py.dict_get cfg "api_key" VNone))
       then [("api_key", "API key is required for Anthropic services")] else [])
      ++ (if negb (Py.truthy (Py.dict_get cfg "model" VNone))
          then [("model", "Model is required for Anthropic services")] else [])
    else if String.eqb service_type "ollama" then
      (if negb (Py.truthy (Py.dict_get cfg "api_base_url" VNone))
       then [("api_base_url", "API base URL is required for Ollama services")] else [])
      ++ (if negb (Py.truthy (Py.dict_get cfg "model" VNone))
          then [("model", "Model is required for Ollama services")] else [])
    else [] in
  let e2 :=
    if negb (Py.truthy (Py.dict_get cfg "is_htr_capable" (VBool false)))
       && negb (Py.truthy (Py.dict_get cfg "is_formatting_capable" (VBool false)))
    then [("capabilities", "Service must support at least one capability (HTR or formatting)")]
    else [] in
  Ok (e0 ++ e1 ++ e2).

(** [AIServiceInterface.__init__] *)
Definition base_init (cls : service_class) (pid : string) (cfg : config) : AIService :=
  {| class_of := cls; provider_id := pid; service_config := cfg;
     display_name := Py.dict_get cfg "display_name" (VStr pid);
     enabled := Py.dict_get cfg "enabled" (VBool true);
     is_htr_capable := Py.dict_get cfg "is_htr_capable" (VBool false);
     is_formatting_capable := Py.dict_get cfg "is_formatting_capable" (VBool false);
     api_key := VNone; model := VNone; max_tokens := VNone; temperature := VNone;
     api_base_url := VNone; timeout := VNone; num_predict := VNone |}.

(** [AnthropicService.__init__]; creating the client never raises. *)
Definition anthropic_init (pid : string) (cfg : config) : AIService :=
  let b := base_init AnthropicService pid cfg in
  {| class_of := class_of b; provider_id := provider_id b;
     service_config := service_config b; display_name := display_name b;
     enabled := enabled b; is_htr_capable := is_htr_capable b;
     is_formatting_capable := is_formatting_capable b;
     api_key := Py.dict_get cfg "api_key" VNone;
     model := Py.dict_get cfg "model" (VStr "claude-3-haiku-20240307");
     max_tokens := Py.dict_get cfg "max_tokens" (VInt 4096);
     temperature := Py.dict_get cfg "temperature" (VFloat (1 # 10));
     api_base_url := VNone; timeout := VNone; num_predict := VNone |}.

(** [OllamaService.__init__]; [rstrip] raises when the URL is not a [str]. *)
Definition ollama_init (pid : string) (cfg : config) : result AIService :=
  let b := base_init OllamaService pid cfg in
  url <- Py.rstrip_slash (Py.dict_get cfg "api_base_url" (VStr "http://localhost:11434")) ;;
  Ok {| class_of := class_of b; provider_id := provider_id b;
        service_config := service_config b; display_name := display_name b;
        enabled := enabled b; is_htr_capable := is_htr_capable b;
        is_formatting_capable := is_formatting_capable b;
        api_key := VNone;
        model := Py.dict_get cfg "model" (VStr "llava");
        max_tokens := VNone;
        temperature := Py.dict_get cfg "temperature" (VFloat (1 # 10));
        api_base_url := url;
        timeout := Py.dict_get cfg "timeout" (VInt 120);
        num_predict := Py.dict_get cfg "num_predict" (VInt 2048) |}.

(** [create_service_from_config] *)
Definition create_service_from_config (pid : string) (cfg : config) : result AIService :=
  errs <- validate_service_config cfg ;;
  match errs with
  | _ :: _ => Raise (Exn ValueError "Invalid service configuration")
  | [] =>
      service_type <- Py.lower (Py.dict_get cfg "type" (VStr "")) ;;
      if String.eqb service_type "mock" then Ok (base_init MockAIService pid cfg)
      else if String.eqb service_type "anthropic" then Ok (anthropic_init pid cfg)
      else if String.eqb service_type "ollama" then ollama_init pid cfg
      else Raise (Exn ValueError ("Unknown service type: " +:+ service_type))
  end.

(** ** ai_services/factory.py *)

(** A [dict] in insertion order: assigning to a present key keeps its place. *)
Fixpoint dict_set {A} (d : list (string * A)) (k : string) (v : A) : list (string * A) :=
  match d with
  | [] => [(k, v)]
  | (k', v') :: rest =>
      if String.eqb k' k then (k, v) :: rest else (k', v') :: dict_set rest k v
  end.

Fixpoint dict_find {A} (d : list (string * A)) (k : string) : option A :=
  match d with
  | [] => None
  | (k', v) :: rest => if String.eqb k' k then Some v else dict_find rest k
  end.

Record AIServiceFactory := {
  _services : list (string * AIService);
  _config : list (string * config)
}.

Definition new_factory : AIServiceFactory := {| _services := []; _config := [] |}.

Definition SERVICE_TYPES : list string := ["anthropic"; "ollama"; "mock"].

(** The body of the [try] of [register_service]. *)
Definition register_service_body (f : AIServiceFactory) (pid : string) (cfg : config)
  : result (bool * AIServiceFactory) :=
  service_type <- Py.lower (Py.dict_get cfg "type" (VStr "")) ;;
  if negb (existsb (String.eqb service_type) SERVICE_TYPES) then Ok (false, f)
  else
    service <- create_service_from_config pid cfg ;;
    validation_errors <- validate_config service ;;
    match validation_errors with
    | _ :: _ => Ok (false, f)
    | [] =>
        Ok (true, {| _services := dict_set (_services f) pid service;
                     _config := dict_set (_config f) pid cfg |})
    end.

(** [register_service]: every exception is caught and gives [False]. *)
Definition register_service (f : AIServiceFactory) (pid : string) (cfg : config)
  : bool * AIServiceFactory :=
  match register_service_body f pid cfg with
  | Ok r => r
  | Raise _ => (false, f)
  end.

(** [get_service] *)
Definition get_service (f : AIServiceFactory) (pid : string) : option AIService :=
  dict_find (_services f) pid.

(** [get_services_by_capability] *)
Definition get_services_by_capability (f : AIServiceFactory) (capability : capability_arg)
  : list AIService :=
  List.filter (fun service => supports_capability service capability
                         && Py.truthy (enabled service))
         (map snd (_services f)).

End AIServices.

(** ** conversion_pipeline.py *)

Module Pipeline.

Import AIServices.

(** *** The outside world *)

(** What a conversion attempt reads from outside the program. *)
Record Env := {
  (** [ConversionPipeline.__init__]: was a [progress_callback] given? *)
  has_progress_callback : bool;
  (** [config_manager.config] *)
  config : value;
  (** [ai_factory] *)
  factory : AIServiceFactory;
  (** [prompt_manager.templates] and the rendering of complex fields *)
  templates : gmap string PromptManager.PromptTemplate;
  complex_field : string -> PromptManager.kwargs -> result string;
  (** [pymupdf.open(temp_path)] followed by [len(doc)] *)
  pdf_page_count : result nat;
  (** [os.path.getsize(temp_path)] *)
  pdf_file_size : result Z;
  (** [pymupdf4llm.to_markdown(temp_path)] *)
  to_markdown : result string;
  (** rendering page [i] to a PNG file under [/tmp] *)
  render_page : nat -> result unit;
  (** [datetime.now()] at the naming step *)
  today : Naming.date;
  (** the Anthropic client was created ([self._client] is set) *)
  anthropic_client : AIService -> bool;
  (** the probe of the Ollama server found the model *)
  ollama_probe : AIService -> bool;
  (** the text that the provider's model returns for a text to format (for
      the mock, what its own formatter produces), and for a page image *)
  remote_format : AIService -> string -> result string;
  remote_vlm : AIService -> nat -> string -> result string;
  (** [generate_text(prompt)] *)
  remote_generate : AIService -> string -> result string;
  (** the [sqlite3.Error], if any, that the connection of [db_manager]
      raises while a method executes its statement *)
  sqlite_error : Database.statement -> option exn
}.

(** [is_available] of the three classes *)
Definition is_available (env : Env) (s : AIService) : bool :=
  match class_of s with
  | MockAIService => Py.truthy (enabled s)
  | AnthropicService =>
      Py.truthy (enabled s) && anthropic_client env s && Py.truthy (api_key s)
  | OllamaService => Py.truthy (enabled s) && ollama_probe env s
  end.

Definition wrap_runtime (what : string) (r : result string) : result string :=
  match r with
  | Ok t => Ok t
  | Raise e => Raise (Exn RuntimeError (what +:+ exn_str e))
  end.

(** [format_markdown] of the three classes *)
Definition format_markdown (env : Env) (s : AIService) (raw_text : string)
  : result string :=
  match class_of s with
  | MockAIService =>
      if negb (Py.truthy (is_formatting_capable s))
      then Raise (Exn NotImplementedError "This service does not support formatting")
      else remote_format env s raw_text
  | AnthropicService =>
      if negb (Py.truthy (is_formatting_capable s))
      then Raise (Exn NotImplementedError
                    "This Anthropic service is not configured for formatting")
      else if negb (is_available env s)
      then Raise (Exn RuntimeError "Anthropic service is not available")
      else wrap_runtime "Anthropic formatting failed: " (remote_format env s raw_text)
  | OllamaService =>
      if negb (Py.truthy (is_formatting_capable s))
      then Raise (Exn NotImplementedError
                    "This Ollama service is not configured for formatting")
      else if negb (is_available env s)
      then Raise (Exn RuntimeError "Ollama service is not available")
      else wrap_runtime "Ollama formatting failed: "
             (Py.rbind (remote_format env s raw_text) (fun formatted_text =>
                if String.eqb formatted_text ""
                then Raise (Exn RuntimeError "Empty response from Ollama text model")
                else Ok formatted_text))
  end.

(** [process_with_vlm]: only [AnthropicService] overrides the method of the
    base class, which raises. *)
Definition process_with_vlm (env : Env) (s : AIService) (page_num : nat)
           (prompt : string) : result string :=
  match class_of s with
  | AnthropicService =>
      if negb (supports_capability s (Member VLM_DIRECT))
      then Raise (Exn NotImplementedError
                    "This Anthropic service is not configured for VLM processing")
      else if negb (is_available env s)
      then Raise (Exn RuntimeError "Anthropic service is not available")
      else wrap_runtime "Anthropic VLM processing failed: " (remote_vlm env s page_num prompt)
  | _ =>
      if negb (supports_capability s (Member VLM_DIRECT))
      then Raise (Exn NotImplementedError "This service does not support VLM processing")
      else Raise (Exn NotImplementedError "VLM processing not implemented for this service")
  end.

(** [ai_factory.get_service(key)] for a key read from the configuration: a
    dict is not hashable; any other value that is not a [str] is no key of
    the registry. *)
Definition factory_get (f : AIServiceFactory) (key : value) : result (option AIService) :=
  match key with
  | VStr pid => Ok (get_service f pid)
  | VDict _ => Raise (Exn TypeError "unhashable type: 'dict'")
  | _ => Ok None
  end.

(** *** Progress entries and conversion results *)

(** The dict that [convert_pdf] returns, without its two display fields: the
    formatted file size and the ISO timestamp. *)
Record ConversionResult := {
  markdown : string;
  filename : string;
  pageCount : nat;
  success : bool;
  ai_enhanced : bool;
  processing_method : string;
  vlm_provider : value;
  formatting_provider : value;
  prompt_templates_used : list string
}.

(** The keyword arguments of a call of the progress callback. *)
Inductive progress_kwarg :=
| kw_total_pages (n : nat)
| kw_filename (s : string)
| kw_file_size (n : Z)
| kw_status (s : string)
| kw_result (r : ConversionResult)
| kw_error (s : string).

(** The stage label: a text, or the f-string [prefix{v}suffix] around a
    configuration value. *)
Inductive stage_label :=
| Stage (text : string)
| StageF (prefix : string) (v : value) (suffix : string).

(** One call [progress_callback(conversion_id, progress, stage, ...)]. *)
Record ProgressEntry := {
  pe_conversion_id : string;
  pe_progress : Z;
  pe_stage : stage_label;
  pe_kwargs : list progress_kwarg
}.

Fixpoint entry_status (kw : list progress_kwarg) : option string :=
  match kw with
  | [] => None
  | kw_status s :: _ => Some s
  | _ :: rest => entry_status rest
  end.

Fixpoint entry_error (kw : list progress_kwarg) : option string :=
  match kw with
  | [] => None
  | kw_error s :: _ => Some s
  | _ :: rest => entry_error rest
  end.

(** *** The state and the monad of an attempt *)

Record State := {
  db : gmap string Database.Row;
  published : list ProgressEntry
}.

Definition M (A : Type) : Type := State -> result A * State.

Definition ret {A} (a : A) : M A := fun st => (Ok a, st).

Definition bind {A B} (m : M A) (k : A -> M B) : M B :=
  fun st => match m st with
            | (Ok a, st') => k a st'
            | (Raise e, st') => (Raise e, st')
            end.

Definition raise {A} (e : exn) : M A := fun st => (Raise e, st).

(** [try: body except Exception as e: handler(e)] *)
Definition try_except {A} (body : M A) (handler : exn -> M A) : M A :=
  fun st => match body st with
            | (Ok a, st') => (Ok a, st')
            | (Raise e, st') => handler e st'
            end.

Definition lift {A} (r : result A) : M A := fun st => (r, st).

Declare Scope pipeline_scope.
Delimit Scope pipeline_scope with pipeline.
Notation "x <- e ;; k" := (bind e (fun x => k))
  (at level 100, e at next level, right associativity) : pipeline_scope.
Notation "e ;; k" := (bind e (fun _ => k))
  (at level 100, right associativity) : pipeline_scope.
Local Open Scope pipeline_scope.

Definition publish (e : ProgressEntry) : M unit :=
  fun st => (Ok tt, {| db := db st; published := published st ++ [e] |}).

(** [with self.get_connection() as conn: ...] inside [try: ... except
    sqlite3.Error: raise]: when the connection raises, the statement is
    rolled back, so that the table is as it was, and the error is re-raised;
    otherwise the statement [run] takes effect. *)
Definition on_connection {A} (error : option exn)
           (run : Database.table -> result A * Database.table) : M A :=
  fun st => match error with
            | Some e => (Raise e, st)
            | None => let '(r, db') := run (db st) in
                      (r, {| db := db'; published := published st |})
            end.

(** [try: op except Exception as db_error: logger.error(...)] *)
Definition logged {A} (op : M A) : M unit :=
  try_except (_ <- op ;; ret tt) (fun _ => ret tt).

(** *** The methods of [ConversionPipeline] *)

Section Methods.

Variable env : Env.

(** The calls [self.db_manager.create_conversion_record(...)],
    [update_conversion_status(...)], [increment_retry_count(...)] and
    [get_conversion_by_id(...)]. *)
Definition db_create (cid fname : string) (fsize pcount : option Z) : M unit :=
  on_connection (sqlite_error env (Database.INSERT cid))
    (fun db => Database.create_conversion_record db cid fname fsize pcount).

Definition db_update (cid status : string) (error_message : option string)
           (kwargs : list Database.kwarg) : M bool :=
  on_connection (sqlite_error env (Database.UPDATE_status cid status))
    (fun db => let '(b, db') := Database.update_conversion_status db cid status
                                  error_message kwargs in
               (Ok b, db')).

Definition db_increment (cid : string) : M bool :=
  on_connection (sqlite_error env (Database.UPDATE_retry_count cid))
    (fun db => let '(b, db') := Database.increment_retry_count db cid in (Ok b, db')).

Definition db_get (cid : string) : M (option Database.Row) :=
  on_connection (sqlite_error env (Database.SELECT cid))
    (fun db => (Ok (Database.get_conversion_by_id db cid), db)).

(** [update_progress] *)
Definition update_progress (conversion_id : string) (progress : Z) (stage : stage_label)
           (kwargs : list progress_kwarg) : M unit :=
  if has_progress_callback env
  then publish {| pe_conversion_id := conversion_id; pe_progress := progress;
                  pe_stage := stage; pe_kwargs := kwargs |}
  else ret tt.

(** [_determine_document_type] *)
Definition _determine_document_type (filename : string) : string :=
  let filename_lower := PyStr.lower filename in
  if existsb (fun keyword => PyStr.contains keyword filename_lower)
       ["academic"; "paper"; "journal"; "research"; "thesis"] then "academic"
  else if existsb (fun keyword => PyStr.contains keyword filename_lower)
            ["note"; "notes"; "meeting"; "memo"] then "notes"
  else if existsb (fun keyword => PyStr.contains keyword filename_lower)
            ["form"; "application"; "survey"] then "forms"
  else "clean".

Definition get_prompt (template_name : string) (variables : PromptManager.kwargs)
  : result string :=
  fst (PromptManager.get_prompt (complex_field env) (templates env) template_name variables).

(** every class of the registry defines [format_markdown] *)
Definition has_format_markdown (s : AIService) : bool := true.

(** [_enhance_markdown_with_ai]: [None] when the call raises or returns a
    text that is empty after [strip]. *)
Definition _enhance_markdown_with_ai (ai_service : AIService)
           (markdown_content filename : string) : option string :=
  let document_type := _determine_document_type filename in
  let prompt_template := "formatting_" +:+ document_type in
  let enhanced_content :=
    if has_format_markdown ai_service
    then format_markdown env ai_service markdown_content
    else Py.rbind (get_prompt prompt_template
                     [("content", markdown_content); ("filename", filename);
                      ("document_type", document_type)])
                  (remote_generate env ai_service) in
  match enhanced_content with
  | Ok text =>
      if negb (String.eqb text "") && (0 <? String.length (PyStr.strip text))
      then Some (PyStr.strip text)
      else None
  | Raise _ => None
  end.

(** [int(20 + (60 * (page_num + 1) / len(doc)))]. The quotient is a float in
    the source; for a page count below 2^40 the truncation of the float sum
    is the integer quotient. *)
Definition page_progress (page_num total : nat) : Z :=
  (20 + (60 * (Z.of_nat page_num + 1)) / Z.of_nat total)%Z.

(** The body of the page loop for one page: the text to append, if any. An
    exception anywhere in the body skips the page, and then nothing is
    published for it. *)
Definition vlm_page (vlm_service : AIService) (conversion_id filename : string)
           (total page_num : nat) : M (option string) :=
  try_except
    (_ <- lift (render_page env page_num) ;;
     let document_type := _determine_document_type filename in
     let prompt_template := "vlm_" +:+ document_type in
     prompt <- lift (get_prompt prompt_template
                       [("filename", filename);
                        ("page_number", PyStr.of_nat (page_num + 1));
                        ("total_pages", PyStr.of_nat total);
                        ("document_type", document_type)]) ;;
     page_markdown <- lift (process_with_vlm env vlm_service page_num prompt) ;;
     update_progress conversion_id (page_progress page_num total)
       (Stage ("Processed page " +:+ PyStr.of_nat (page_num + 1) +:+ "/"
               +:+ PyStr.of_nat total +:+ " with VLM")) [] ;;
     ret (if String.eqb page_markdown "" then None else Some page_markdown))
    (fun _ => ret None).

(** [for page_num in range(len(doc))], collecting [markdown_pages] *)
Fixpoint vlm_pages (vlm_service : AIService) (conversion_id filename : string)
         (total : nat) (page_nums : list nat) : M (list string) :=
  match page_nums with
  | [] => ret []
  | page_num :: rest =>
      page <- vlm_page vlm_service conversion_id filename total page_num ;;
      pages <- vlm_pages vlm_service conversion_id filename total rest ;;
      ret (match page with Some text => text :: pages | None => pages end)
  end.

Definition PAGE_SEPARATOR : string := "

---

".

(** [_process_with_vlm] behind its guard (lines 305 to 370): the first
    publication, the page loop and the joining of the pages. *)
Definition vlm_pass (vlm_service : AIService) (conversion_id filename : string)
  : M (option string) :=
  update_progress conversion_id 20
    (Stage "Processing with Vision-Language Model...") [] ;;
  total <- lift (pdf_page_count env) ;;
  markdown_pages <- vlm_pages vlm_service conversion_id filename total
                      (seq 0 total) ;;
  match markdown_pages with
  | [] => ret None
  | _ => ret (Some (PyStr.join PAGE_SEPARATOR markdown_pages))
  end.

(** [_process_with_vlm] *)
Definition _process_with_vlm (conversion_id filename : string) : M (option string) :=
  try_except
    (let vlm_provider_id :=
       ConfigManager.get_setting (config env) "active_services.vlm_provider_id" VNone in
     if negb (Py.truthy vlm_provider_id) then ret None
     else
       vlm_service <- lift (factory_get (factory env) vlm_provider_id) ;;
       match vlm_service with
       | None => ret None
       | Some vlm_service =>
           if negb (supports_capability vlm_service (Text "vlm_direct")) then ret None
           else vlm_pass vlm_service conversion_id filename
       end)
    (fun _ => ret None).

(** [_get_used_prompt_templates] *)
Definition _get_used_prompt_templates (vlm_used : bool) (filename : string) : list string :=
  if vlm_used then ["vlm_" +:+ _determine_document_type filename]
  else ["formatting_" +:+ _determine_document_type filename].

(** Step 3 of [convert_pdf]: the AI enhancement of the extracted text. *)
Definition enhance_step (conversion_id filename markdown_content : string) : M string :=
  let formatting_provider_id :=
    ConfigManager.get_setting (config env) "active_services.formatting_provider_id" VNone in
  if Py.truthy formatting_provider_id then
    try_except
      (update_progress conversion_id 50
         (StageF "Enhancing with AI (" formatting_provider_id ")...") [] ;;
       ai_service <- lift (factory_get (factory env) formatting_provider_id) ;;
       match ai_service with
       | Some ai_service =>
           if is_available env ai_service then
             update_progress conversion_id 70
               (Stage "Refining markdown formatting with AI...") [] ;;
             match _enhance_markdown_with_ai ai_service markdown_content filename with
             | Some enhanced_markdown =>
                 update_progress conversion_id 85 (Stage "AI enhancement complete") [] ;;
                 ret enhanced_markdown
             | None =>
                 update_progress conversion_id 85
                   (Stage "AI enhancement skipped (using original)") [] ;;
                 ret markdown_content
             end
           else
             update_progress conversion_id 85
               (Stage "AI service not available, using original text") [] ;;
             ret markdown_content
       | None =>
           update_progress conversion_id 85
             (Stage "AI service not available, using original text") [] ;;
           ret markdown_content
       end)
      (fun _ =>
         update_progress conversion_id 85
           (Stage "AI enhancement failed, using original text") [] ;;
         ret markdown_content)
  else
    update_progress conversion_id 85
      (Stage "AI enhancement disabled, using original text") [] ;;
    ret markdown_content.

(** Step 6: [output_pattern.replace(...).replace(...)]; a pattern that is not
    a [str] has no [replace]. *)
Definition name_output (output_pattern : value) (filename : string) : result string :=
  match output_pattern with
  | VStr pattern => Ok (Naming.output_filename pattern filename (today env))
  | v => Py.no_attribute v "replace"
  end.

(** The body of the [try] of [convert_pdf]. *)
Definition convert_pdf_body (conversion_id filename : string) : M ConversionResult :=
  total_pages <- lift (pdf_page_count env) ;;
  file_size <- lift (pdf_file_size env) ;;
  logged (db_create conversion_id filename (Some file_size)
            (Some (Z.of_nat total_pages))) ;;
  update_progress conversion_id 5 (Stage "Initializing conversion...")
    [kw_total_pages total_pages; kw_filename filename; kw_file_size file_size] ;;
  logged (db_update conversion_id "processing" None []) ;;
  vlm_markdown <- _process_with_vlm conversion_id filename ;;
  markdown_content <-
    match vlm_markdown with
    | Some text =>
        update_progress conversion_id 85 (Stage "VLM processing complete") [] ;;
        ret text
    | None =>
        update_progress conversion_id 10 (Stage "Extracting text from PDF...") [] ;;
        markdown_content <- lift (to_markdown env) ;;
        update_progress conversion_id 40 (Stage "Basic text extraction complete") [] ;;
        enhance_step conversion_id filename markdown_content
    end ;;
  update_progress conversion_id 90 (Stage "Finalizing output...") [] ;;
  let output_pattern :=
    ConfigManager.get_setting (config env) "app_settings.default_output_pattern"
      (VStr "YYYY-MM-DD-[OriginalFileName].md") in
  output_filename <- lift (name_output output_pattern filename) ;;
  let vlm_provider_id :=
    ConfigManager.get_setting (config env) "active_services.vlm_provider_id" VNone in
  let formatting_provider_id :=
    ConfigManager.get_setting (config env) "active_services.formatting_provider_id" VNone in
  let vlm_used := match vlm_markdown with Some _ => true | None => false end in
  let result :=
    {| markdown := markdown_content;
       filename := filename;
       pageCount := total_pages;
       success := true;
       ai_enhanced := vlm_used || Py.truthy formatting_provider_id;
       processing_method := if vlm_used then "vlm" else "traditional";
       vlm_provider := if vlm_used then vlm_provider_id else VNone;
       formatting_provider :=
         if negb vlm_used && Py.truthy formatting_provider_id
         then formatting_provider_id else VNone;
       prompt_templates_used := _get_used_prompt_templates vlm_used filename |} in
  update_progress conversion_id 95 (Stage "Conversion complete!")
    [kw_status "completed"; kw_result result] ;;
  logged (db_update conversion_id "completed" None
            [Database.kw_output_filename (Some output_filename);
             Database.kw_final_markdown_path
               (Some ("/app/output_markdown/" +:+ output_filename))]) ;;
  update_progress conversion_id 100 (Stage "Pipeline complete!") [] ;;
  ret result.

(** The terminal error entry: [progress_callback(conversion_id, 0,
    f'Error: {str(e)}', status='error', error=str(e))]. *)
Definition error_entry (conversion_id : string) (e : exn) : ProgressEntry :=
  {| pe_conversion_id := conversion_id; pe_progress := 0;
     pe_stage := Stage ("Error: " +:+ exn_str e);
     pe_kwargs := [kw_status "error"; kw_error (exn_str e)] |}.

(** [convert_pdf] *)
Definition convert_pdf (conversion_id filename : string) : M ConversionResult :=
  try_except (convert_pdf_body conversion_id filename)
    (fun e =>
       logged (db_update conversion_id "failed" (Some (exn_str e)) []) ;;
       (if has_progress_callback env then publish (error_entry conversion_id e)
        else ret tt) ;;
       raise e).

(** [record.retry_count], where [record] is the [dict] that
    [get_conversion_by_id] returns: the columns of a row are the keys of the
    dict, not attributes of it. *)
Definition dict_getattr (record : Database.Row) (attr : string) : result Z :=
  Raise (Exn AttributeError ("'dict' object has no attribute '" +:+ attr +:+ "'")).

(** [min(2 ** retry_count, 60)] *)
Definition backoff_delay (retry_count : Z) : Z := Z.min (2 ^ retry_count) 60.

(** [retry_conversion]; the result is the [status] of the returned dict. The
    sleep of [backoff_delay] seconds changes no state. *)
Definition retry_conversion (conversion_id : string) : M string :=
  try_except
    (record <- db_get conversion_id ;;
     match record with
     | None => raise (Exn ValueError ("Conversion record " +:+ conversion_id +:+ " not found"))
     | Some record =>
         let max_retries :=
           ConfigManager.get_setting (config env) "app_settings.max_retries" (VInt 3) in
         retry_count <- lift (dict_getattr record "retry_count") ;;
         exceeded <- lift (Py.int_ge retry_count max_retries) ;;
         if exceeded : bool then
           raise (Exn ValueError ("Maximum retries exceeded for conversion " +:+ conversion_id))
         else
           let delay := backoff_delay retry_count in
           db_increment conversion_id ;;
           db_update conversion_id "processing" None [] ;;
           ret "retry_initiated"
     end)
    (fun e => raise e).

End Methods.

End Pipeline.

(** ** app.py: the route [/api/history/<conversion_id>/retry] *)

Module App.

Import Pipeline.
Local Open Scope pipeline_scope.

Inductive response :=
| NotFound404
| CannotRetry400 (status : string) (retry_count : Z)
| RetryInitiated200 (retry_count : Z) (status : string)
| RetryInitiatedBasic200 (retry_count : Z)
| Failed500 (message : string).

(** [retry_conversion(conversion_id)]; the route never raises. *)
Definition retry_conversion (env : Env) (conversion_id : string) : State -> response * State :=
  fun st =>
    let body : M response :=
      record_dict <- db_get env conversion_id ;;
      match record_dict with
      | None => ret NotFound404
      | Some record_dict =>
          let record := Database.from_dict record_dict in
          let max_retries :=
            ConfigManager.get_setting (config env) "app_settings.global_retry_attempts"
              (VInt 3) in
          retryable <- lift (Models.is_retryable record max_retries) ;;
          if negb retryable then
            ret (CannotRetry400 (Models.status_value (Models.status record))
                   (Models.retry_count record))
          else
            db_increment env conversion_id ;;
            db_update env conversion_id "retrying" None [] ;;
            try_except
              (retry_status <- Pipeline.retry_conversion env conversion_id ;;
               ret (RetryInitiated200 (Models.retry_count record + 1)%Z retry_status))
              (fun _ => ret (RetryInitiatedBasic200 (Models.retry_count record + 1)%Z))
      end in
    match body st with
    | (Ok r, st') => (r, st')
    | (Raise e, st') => (Failed500 ("Failed to retry conversion: " +:+ exn_str e), st')
    end.

End App.

(** ** Notions used in the statements *)

Module Notions.

Import Pipeline.

(** a text that is empty or made of white space only *)
Definition whitespace_only (text : string) : bool := PyStr.all_chars PyStr.isspace text.

(** the formatting call raised, or returned an empty or white-space-only text *)
Definition formatting_fails (r : result string) : Prop :=
  match r with
  | Raise _ => True
  | Ok text => whitespace_only text = true
  end.

Fixpoint nondecreasing (l : list Z) : Prop :=
  match l with
  | [] => True
  | x :: rest =>
      match rest with
      | [] => True
      | y :: _ => (x <= y)%Z /\ nondecreasing rest
      end
  end.

Definition progress_values (l : list ProgressEntry) : list Z := map pe_progress l.

Definition empty_state : State := {| db := ∅; published := [] |}.

(** the provider ids under which the services of [byCapability] are registered *)
Definition listed_ids (f : AIServices.AIServiceFactory)
           (capability : AIServices.capability_arg) : list string :=
  map fst (List.filter (fun entry => AIServices.supports_capability (snd entry) capability
                                && Py.truthy (AIServices.enabled (snd entry)))
                  (AIServices._services f)).

End Notions.

(** ** Concrete runs *)

Module Scenarios.

Import AIServices Pipeline.

(** the provider [anthropic_claude_haiku] of [DEFAULT_CONFIG_STRUCTURE], with
    a key in place of the environment placeholder *)
Definition anthropic_claude_haiku (is_enabled : bool) : AIServices.config :=
  [("display_name", VStr "Anthropic (Claude 3 Haiku)");
   ("type", VStr "anthropic");
   ("api_key", VStr "sk-test");
   ("model", VStr "claude-3-haiku-20240307");
   ("is_htr_capable", VBool true);
   ("is_formatting_capable", VBool true);
   ("is_vlm_capable", VBool true);
   ("enabled", VBool is_enabled)].

Definition registry : AIServiceFactory :=
  snd (register_service new_factory "anthropic_claude_haiku" (anthropic_claude_haiku true)).

Definition settings (vlm_provider_id formatting_provider_id : value) : value :=
  VDict [("app_settings",
          VDict [("default_output_pattern", VStr "YYYY-MM-DD-[OriginalFileName].md");
                 ("global_retry_attempts", VInt 2)]);
         ("active_services",
          VDict [("htr_provider_id", VStr "ollama_llava");
                 ("formatting_provider_id", formatting_provider_id);
                 ("vlm_provider_id", vlm_provider_id)])].

(** A three-page document converted on 2024-03-05, with a store that works. *)
Definition world (callback : bool) (vlm_provider_id formatting_provider_id : value)
           (extraction formatting : result string) (vlm : nat -> result string) : Env :=
  {| has_progress_callback := callback;
     config := settings vlm_provider_id formatting_provider_id;
     factory := registry;
     templates := PromptManager.default_templates;
     complex_field := fun _ _ => Raise (Exn ValueError "Invalid format specifier");
     pdf_page_count := Ok 3;
     pdf_file_size := Ok 2048%Z;
     to_markdown := extraction;
     render_page := fun _ => Ok tt;
     today := {| Naming.year := 2024; Naming.month := 3; Naming.day := 5 |};
     anthropic_client := fun _ => true;
     ollama_probe := fun _ => false;
     remote_format := fun _ _ => formatting;
     remote_vlm := fun _ page_num _ => vlm page_num;
     remote_generate := fun _ _ => formatting;
     sqlite_error := fun _ => None |}.

Definition database_is_locked : exn := Exn OperationalError "database is locked".

Definition statement_eqb (s1 s2 : Database.statement) : bool :=
  match s1, s2 with
  | Database.INSERT c1, Database.INSERT c2 => String.eqb c1 c2
  | Database.UPDATE_status c1 t1, Database.UPDATE_status c2 t2 =>
      String.eqb c1 c2 && String.eqb t1 t2
  | Database.UPDATE_retry_count c1, Database.UPDATE_retry_count c2 => String.eqb c1 c2
  | Database.SELECT c1, Database.SELECT c2 => String.eqb c1 c2
  | _, _ => false
  end.

(** the world [w] with a database that is locked while [rejected] is executed *)
Definition store_rejects (rejected : Database.statement) (w : Env) : Env :=
  {| has_progress_callback := has_progress_callback w;
     config := Pipeline.config w;
     factory := factory w;
     templates := templates w;
     complex_field := complex_field w;
     pdf_page_count := pdf_page_count w;
     pdf_file_size := pdf_file_size w;
     to_markdown := to_markdown w;
     render_page := render_page w;
     today := today w;
     anthropic_client := anthropic_client w;
     ollama_probe := ollama_probe w;
     remote_format := remote_format w;
     remote_vlm := remote_vlm w;
     remote_generate := remote_generate w;
     sqlite_error := fun s => if statement_eqb s rejected
                              then Some database_is_locked else None |}.

Definition timeout_error : exn := Exn OtherException "request timed out".

(** the formatting provider is configured and its call times out *)
Definition formatting_times_out : Env :=
  world true VNone (VStr "anthropic_claude_haiku")
    (Ok "raw text") (Raise timeout_error) (fun _ => Raise timeout_error).

(** the extraction of the text raises, with and without a message *)
Definition extraction_raises (callback : bool) (message : string) : Env :=
  world callback VNone VNone
    (Raise (Exn OtherException message)) (Ok "") (fun _ => Raise timeout_error).

(** the document converts without AI provider *)
Definition plain_conversion : Env :=
  world true VNone VNone (Ok "raw text") (Ok "") (fun _ => Raise timeout_error).

(** a VLM provider is configured; the call for the second page raises *)
Definition vlm_second_page_raises : Env :=
  world true (VStr "anthropic_claude_haiku") VNone
    (Ok "raw text") (Ok "")
    (fun page_num => match page_num with
                     | 0 => Ok "page one"
                     | 1 => Raise timeout_error
                     | _ => Ok "page three"
                     end).

(** a VLM provider is configured; its call raises for every page *)
Definition vlm_every_page_raises : Env :=
  world true (VStr "anthropic_claude_haiku") VNone
    (Ok "raw text") (Ok "") (fun _ => Raise timeout_error).

(** the record of a failed attempt, after [retries] retries *)
Definition failed_row (retries : Z) : Database.Row :=
  {| Database.conversion_id := "c-1";
     Database.original_filename := "scan.pdf";
     Database.output_filename := None;
     Database.status := "failed";
     Database.htr_provider := None;
     Database.formatting_provider := None;
     Database.error_message := Some "boom";
     Database.raw_htr_output_path := None;
     Database.final_markdown_path := None;
     Database.retry_count := retries;
     Database.file_size := Some 2048%Z;
     Database.page_count := Some 3%Z |}.

Definition table_with (row : Database.Row) : State :=
  {| db := {[ Database.conversion_id row := row ]}; published := [] |}.

End Scenarios.

(** ** Assertions about an attempt *)

Module Logic.

Import Pipeline Notions.

(** [hoare P m Q E]: from a state in [P], [m] ends in [Q] when it returns and
    in [E] when it raises. *)
Definition hoare {A} (P : State -> Prop) (m : M A)
           (Q : A -> State -> Prop) (E : exn -> State -> Prop) : Prop :=
  forall st, P st ->
    match m st with
    | (Ok a, st') => Q a st'
    | (Raise e, st') => E e st'
    end.

(** [returns m a]: [m] returns [a], whatever the state. *)
Definition returns {A} (m : M A) (a : A) : Prop := forall st, exists st', m st = (Ok a, st').

(** [raises m]: [m] raises, whatever the state. *)
Definition raises {A} (m : M A) : Prop := forall st, exists e st', m st = (Raise e, st').

(** The state that the handler of [convert_pdf] leaves, from the state in
    which the body raised [e]. *)
Definition after_failure (env : Env) (cid : string) (e : exn) (st1 : State) : State :=
  {| db := match sqlite_error env (Database.UPDATE_status cid "failed") with
           | Some _ => db st1
           | None => snd (Database.update_conversion_status (db st1) cid "failed"
                            (Some (exn_str e)) [])
           end;
     published := published st1
                  ++ (if has_progress_callback env then [error_entry cid e] else []) |}.

(** [upto pre hi st]: since the trace was [pre], the attempt has published
    percentages that never decrease and are at most [hi]. *)
Definition upto (pre : list ProgressEntry) (hi : Z) (st : State) : Prop :=
  exists l, published st = pre ++ l
            /\ nondecreasing (progress_values l)
            /\ Forall (fun x => (x <= hi)%Z) (progress_values l).

(** [steps pre lo hi m]: [m] takes the bound from [lo] to at most [hi],
    whether it returns or raises. *)
Definition steps {A} (pre : list ProgressEntry) (lo hi : Z) (m : M A) : Prop :=
  hoare (upto pre lo) m (fun _ => upto pre hi) (fun _ => upto pre hi).

(** a computation that publishes nothing *)
Definition silent {A} (m : M A) : Prop :=
  forall st, published (snd (m st)) = published st.

(** a computation that leaves the table as it is *)
Definition db_silent {A} (m : M A) : Prop := forall st, db (snd (m st)) = db st.

(** an assertion about the table alone *)
Definition on_db (D : gmap string Database.Row -> Prop) : State -> Prop :=
  fun st => D (db st).

(** no row for the conversion yet *)
Definition no_row (cid : string) (d : gmap string Database.Row) : Prop := d !! cid = None.

(** a row without output file name *)
Definition pending_row (cid : string) (d : gmap string Database.Row) : Prop :=
  exists row, d !! cid = Some row /\ Database.output_filename row = None.

(** a completed row with its output file name *)
Definition completed_row (cid : string) (d : gmap string Database.Row) : Prop :=
  exists row, d !! cid = Some row /\ Database.status row = "completed"
              /\ Database.output_filename row <> None.

(** the document could not be opened, or its size not be read *)
Definition not_opened (env : Env) : Prop :=
  (exists e, pdf_page_count env = Raise e) \/ (exists e, pdf_file_size env = Raise e).

(** The attempt creates its record: the document is opened and the store
    accepts the INSERT of [create_conversion_record], which the UNIQUE
    constraint rejects when the conversion id has a row already. *)
Definition creates_record (env : Env) (cid fname : string) (st : State) : Prop :=
  exists n size,
    pdf_page_count env = Ok n /\ pdf_file_size env = Ok size
    /\ fst (db_create env cid fname (Some size) (Some (Z.of_nat n)) st) = Ok tt.

(** The store accepts the update that ends the attempt, to [completed] or to
    [failed]. *)
Definition accepts_final_update (env : Env) (cid : string) : Prop :=
  sqlite_error env (Database.UPDATE_status cid "completed") = None
  /\ sqlite_error env (Database.UPDATE_status cid "failed") = None.

(** By its configuration the attempt does not enter the VLM pass: no VLM
    provider id is configured, or the id names no registered service that
    declares the capability [VLM_DIRECT]. *)
Definition without_vlm_pass (env : Env) : Prop :=
  let vlm_provider_id :=
    ConfigManager.get_setting (config env) "active_services.vlm_provider_id" VNone in
  Py.truthy vlm_provider_id = false
  \/ forall s, factory_get (factory env) vlm_provider_id = Ok (Some s) ->
               AIServices.supports_capability s (AIServices.Member AIServices.VLM_DIRECT)
               = false.

End Logic.

(** * Properties *)

Import Logic.


(** ** Facts about Python strings *)

Section StringFacts.

Lemma append_assoc (a b c : string) : (a +:+ b) +:+ c = a +:+ (b +:+ c).
Proof. induction a as [|x a IH]; [reflexivity | simpl; now rewrite IH]. Qed.

Lemma prefix_nil (s : string) : String.prefix EmptyString s = true.
Proof. destruct s; reflexivity. Qed.

Lemma prefix_append (p r : string) : String.prefix p (p +:+ r) = true.
Proof.
  induction p as [|x p IH]; simpl; [apply prefix_nil|].
  destruct (ascii_dec x x); [exact IH | congruence].
Qed.

Lemma prefix_split (p s : string) :
  String.prefix p s = true -> s = p +:+ PyStr.drop (String.length p) s.
Proof.
  revert s; induction p as [|x p IH]; intros s H.
  - reflexivity.
  - destruct s as [|y s]; simpl in H; [discriminate|].
    destruct (ascii_dec x y) as [->|]; [|discriminate].
    simpl. f_equal. now apply IH.
Qed.

Lemma length_append (a b : string) :
  String.length (a +:+ b) = String.length a + String.length b.
Proof. induction a; simpl; congruence. Qed.

(** Dropping the rest of a matched occurrence resumes the scan after it. *)
Lemma replace_from_skip (old new pre rest : string) :
  PyStr.replace_from old new (String.length pre) (pre +:+ rest)
  = PyStr.replace_from old new 0 rest.
Proof. induction pre as [|x pre IH]; simpl; [reflexivity | exact IH]. Qed.

Lemma replace_from_match (old new rest : string) :
  old <> EmptyString ->
  PyStr.replace_from old new 0 (old +:+ rest)
  = new +:+ PyStr.replace_from old new 0 rest.
Proof.
  intros Hne. destruct old as [|o old]; [congruence|].
  change (String o old +:+ rest) with (String o (old +:+ rest)).
  cbn [PyStr.replace_from].
  change (String o (old +:+ rest)) with (String o old +:+ rest).
  rewrite prefix_append.
  replace (String.length (String o old) - 1) with (String.length old)
    by (simpl; lia).
  now rewrite replace_from_skip.
Qed.

(** No occurrence of [old] starts inside a text none of whose characters
    is the first character of [old]. *)
Lemma replace_from_through (o : ascii) (old new pre rest : string) :
  PyStr.all_chars (fun c => negb (Ascii.eqb c o)) pre = true ->
  PyStr.replace_from (String o old) new 0 (pre +:+ rest)
  = pre +:+ PyStr.replace_from (String o old) new 0 rest.
Proof.
  induction pre as [|x pre IH]; intros H; [reflexivity|].
  simpl in H. apply andb_prop in H as [Hx Hpre].
  change (String x pre +:+ rest) with (String x (pre +:+ rest)).
  cbn [PyStr.replace_from String.prefix].
  destruct (ascii_dec o x) as [->|Hox].
  - rewrite Ascii.eqb_refl in Hx. discriminate.
  - simpl. f_equal. now apply IH.
Qed.

(** A text that shares no character with the inserted text and is a prefix
    of the result of a replacement was already a prefix of the source. *)
Lemma prefix_before_replace (good : ascii -> bool) (old new n s : string) :
  old <> EmptyString ->
  (exists t new', new = String t new' /\ good t = true) ->
  PyStr.all_chars (fun c => negb (good c)) n = true ->
  String.prefix n (PyStr.replace_from old new 0 s) = true ->
  String.prefix n s = true.
Proof.
  intros Hold (t & new' & -> & Ht). revert s.
  induction n as [|x n IH]; intros s Hn H; [apply prefix_nil|].
  simpl in Hn. apply andb_prop in Hn as [Hx Hn].
  destruct s as [|c s]; [simpl in H; discriminate|].
  cbn [PyStr.replace_from] in H.
  destruct (String.prefix old (String c s)).
  - simpl in H. destruct (ascii_dec x t) as [->|]; [|discriminate].
    rewrite Ht in Hx. discriminate.
  - simpl in H |- *. destruct (ascii_dec x c); [|discriminate].
    now apply IH.
Qed.

End StringFacts.


Example isspace_codes :
List.filter (fun n => PyStr.isspace (ascii_of_nat n)) (seq 0 256)
= [9; 10; 11; 12; 13; 28; 29; 30; 31; 32; 133; 160].
Proof. vm_compute. reflexivity. Qed.

Example strip_ex : PyStr.strip "  a b
 " = "a b".
Proof. reflexivity. Qed.

Example replace_ex : PyStr.replace "XX" "y" "aXXXb" = "ayXb".
Proof. reflexivity. Qed.

Example replace_empty_ex : PyStr.replace "" "-" "abc" = "-a-b-c-".
Proof. reflexivity. Qed.

Example splitext_ex :
map PyStr.splitext ["report.pdf"; ".bashrc"; "a.b.c"; "dir.d/file"; "a/.b"; "...x"; "x."; "..a.b"; ""]
= [("report", ".pdf"); (".bashrc", ""); ("a.b", ".c"); ("dir.d/file", ""); ("a/.b", "");
   ("...x", ""); ("x", "."); ("..a", ".b"); ("", "")].
Proof. vm_compute. reflexivity. Qed.

Example document_type_ex :
  map (fun fname => Pipeline._determine_document_type fname)
      ["meeting_notes.pdf"; "Research_Paper_Final.pdf"; "scan001.pdf"; "tax_form.pdf"]
  = ["notes"; "academic"; "clean"; "forms"].
Proof. vm_compute. reflexivity. Qed.

Example split_ex : PyStr.split_char "."%char "a.b..c" = ["a"; "b"; ""; "c"].
Proof. reflexivity. Qed.

(** ** Output naming *)

Section NamingFacts.

Import Naming.

Lemma all_chars_append (f : ascii -> bool) (a b : string) :
  PyStr.all_chars f (a +:+ b) = PyStr.all_chars f a && PyStr.all_chars f b.
Proof.
  induction a as [|x a IH]; simpl; [reflexivity|].
  now rewrite IH, andb_assoc.
Qed.

Lemma all_chars_impl (f g : ascii -> bool) (s : string) :
  (forall c, f c = true -> g c = true) ->
  PyStr.all_chars f s = true -> PyStr.all_chars g s = true.
Proof.
  intros Hfg. induction s as [|x s IH]; simpl; [reflexivity|].
  intros H. apply andb_prop in H as [Hx Hs].
  now rewrite (Hfg _ Hx), IH.
Qed.

Lemma string_of_uint_digits (u : Decimal.uint) :
  PyStr.all_chars PyStr.is_digit_or_dash (NilEmpty.string_of_uint u) = true.
Proof. induction u; simpl; try reflexivity; exact IHu. Qed.

Lemma of_nat_digits (n : nat) :
  PyStr.all_chars PyStr.is_digit_or_dash (PyStr.of_nat n) = true.
Proof. apply string_of_uint_digits. Qed.

Lemma pad2_digits (n : nat) :
  PyStr.all_chars PyStr.is_digit_or_dash (pad2 n) = true.
Proof.
  unfold pad2. destruct (n <? 10); [|apply of_nat_digits].
  rewrite all_chars_append, of_nat_digits. reflexivity.
Qed.

Lemma strftime_Ymd_digits (d : date) :
  PyStr.all_chars PyStr.is_digit_or_dash (strftime_Ymd d) = true.
Proof.
  unfold strftime_Ymd.
  rewrite !all_chars_append, of_nat_digits, !pad2_digits. reflexivity.
Qed.

Lemma strftime_Ymd_head (d : date) :
  exists t rest, strftime_Ymd d = String t rest /\ PyStr.is_digit_or_dash t = true.
Proof.
  pose proof (strftime_Ymd_digits d) as H. unfold strftime_Ymd in *.
  destruct (PyStr.of_nat (year d)) as [|t a].
  - eexists _, _. split; [reflexivity | reflexivity].
  - simpl in H. apply andb_prop in H as [Ht _].
    eexists _, _. split; [reflexivity | exact Ht].
Qed.

Lemma substitute_tokens_date (dt nt rest : string) :
  substitute_tokens_from dt nt 0 (DATE_TOKEN +:+ rest)
  = dt +:+ substitute_tokens_from dt nt 0 rest.
Proof.
  pose proof (prefix_append DATE_TOKEN rest) as Hp.
  change (DATE_TOKEN +:+ rest) with (String "Y"%char ("YYY-MM-DD" +:+ rest)) in *.
  cbn [substitute_tokens_from]. rewrite Hp. reflexivity.
Qed.

Lemma substitute_tokens_name (dt nt rest : string) :
  substitute_tokens_from dt nt 0 (NAME_TOKEN +:+ rest)
  = nt +:+ substitute_tokens_from dt nt 0 rest.
Proof.
  pose proof (prefix_append NAME_TOKEN rest) as Hp.
  assert (Hd : String.prefix DATE_TOKEN (NAME_TOKEN +:+ rest) = false) by reflexivity.
  change (NAME_TOKEN +:+ rest)
    with (String "["%char ("OriginalFileName]" +:+ rest)) in *.
  cbn [substitute_tokens_from]. rewrite Hd, Hp. reflexivity.
Qed.

Lemma length_drop_token (tok s : string) :
  tok <> EmptyString -> String.prefix tok s = true ->
  String.length (PyStr.drop (String.length tok) s) < String.length s.
Proof.
  intros Hne H. apply prefix_split in H.
  rewrite H at 2. rewrite length_append.
  destruct tok; [congruence | simpl; lia].
Qed.

(** Replacing the date token and then the name token is the one-pass
    substitution, whenever the date text is made of digits and dashes. *)
Lemma replace_twice_one_pass (ts base : string) :
  PyStr.all_chars PyStr.is_digit_or_dash ts = true ->
  (exists t rest, ts = String t rest /\ PyStr.is_digit_or_dash t = true) ->
  forall n p, String.length p <= n ->
    PyStr.replace_from NAME_TOKEN base 0 (PyStr.replace_from DATE_TOKEN ts 0 p)
    = substitute_tokens_from ts base 0 p.
Proof.
  intros Hts Hhead.
  assert (Hts' : PyStr.all_chars (fun c => negb (Ascii.eqb c "["%char)) ts = true).
  { revert Hts. apply all_chars_impl. intros c Hc.
    destruct (Ascii.eqb_spec c "["%char) as [->|]; [discriminate | reflexivity]. }
  induction n as [|n IH]; intros p Hlen.
  { destruct p; [reflexivity | simpl in Hlen; lia]. }
  destruct (String.prefix DATE_TOKEN p) eqn:Hd.
  - pose proof (length_drop_token DATE_TOKEN p ltac:(discriminate) Hd) as Hlt.
    apply prefix_split in Hd. rewrite Hd.
    rewrite replace_from_match by discriminate.
    unfold NAME_TOKEN at 1.
    rewrite (replace_from_through "["%char) by exact Hts'.
    rewrite substitute_tokens_date. f_equal.
    apply IH. lia.
  - destruct (String.prefix NAME_TOKEN p) eqn:Hn.
    + pose proof (length_drop_token NAME_TOKEN p ltac:(discriminate) Hn) as Hlt.
      apply prefix_split in Hn. rewrite Hn.
      unfold DATE_TOKEN at 1.
      rewrite (replace_from_through "Y"%char) by reflexivity.
      rewrite replace_from_match by discriminate.
      rewrite substitute_tokens_name. f_equal.
      apply IH. lia.
    + destruct p as [|c p]; [reflexivity|].
      cbn [PyStr.replace_from substitute_tokens_from].
      rewrite Hd, Hn.
      assert (Hn' : String.prefix NAME_TOKEN
                      (String c (PyStr.replace_from DATE_TOKEN ts 0 p)) = false).
      { destruct (String.prefix NAME_TOKEN
                    (String c (PyStr.replace_from DATE_TOKEN ts 0 p))) eqn:E;
          [|reflexivity].
        rewrite <- Hn. symmetry.
        apply (prefix_before_replace PyStr.is_digit_or_dash DATE_TOKEN ts);
          [discriminate | exact Hhead | reflexivity |].
        cbn [PyStr.replace_from]. rewrite Hd. exact E. }
      cbn [PyStr.replace_from]. rewrite Hn'. f_equal.
      apply IH. simpl in Hlen. lia.
Qed.

End NamingFacts.

(** C9.  For every output pattern, file name and date, the output name is the
  pattern in which each occurrence of the literal token [YYYY-MM-DD] is
  replaced by the date and each occurrence of [[OriginalFileName]] by the
  file name without its extension, every other character being copied; the
  pattern [YYYY-MM-DD-[OriginalFileName].md] with [report.pdf] on 2024-03-05
  gives [2024-03-05-report.md]. *)
Theorem output_name_substitution :
(forall (pattern filename : string) (today : Naming.date),
    Naming.output_filename pattern filename today
    = Naming.substitute_tokens (Naming.strftime_Ymd today)
        (fst (PyStr.splitext filename)) pattern)
/\ Naming.output_filename "YYYY-MM-DD-[OriginalFileName].md" "report.pdf"
     {| Naming.year := 2024; Naming.month := 3; Naming.day := 5 |}
   = "2024-03-05-report.md".
Proof.
split.
- intros pattern filename today.
  unfold Naming.output_filename, Naming.substitute_tokens.
  apply (replace_twice_one_pass _ _ (strftime_Ymd_digits today)
           (strftime_Ymd_head today) (String.length pattern)).
  lia.
- vm_compute. reflexivity.
Qed.

Example format_examples :
  let cf := fun (_ : string) (_ : PromptManager.kwargs) => Ok "?" in
  map (fun '(f, kw) => PromptManager.str_format cf f kw)
      [("A {x} B {y}", [("x", "1"); ("y", "2")]); ("{{x}}", []); ("{a b}", [("a b", "q")])]
  = [Ok "A 1 B 2"; Ok "{x}"; Ok "q"]
  /\ map (fun '(f, kw) => match PromptManager.str_format cf f kw with
                          | Ok _ => None | Raise e => Some (exn_class e) end)
      [("A {x} B {y}", [("x", "1")]); ("{}", []); ("{0}", []); ("{", []); ("}", []);
       ("{x}}", [("x", "a")]); ("{x", [("x", "a")]); ("{a}{", []); ("{ x }", [("x", "a")])]
  = [Some KeyError; Some IndexError; Some IndexError; Some ValueError; Some ValueError;
     Some ValueError; Some ValueError; Some KeyError; Some KeyError].
Proof. vm_compute. split; reflexivity. Qed.

(** ** A program logic for the monad of an attempt *)

Section Rules.

Import Pipeline.

Lemma hoare_ret {A} (a : A) (Q : A -> State -> Prop) E :
  hoare (Q a) (ret a) Q E.
Proof. intros st H. exact H. Qed.

Lemma hoare_raise {A} (e : exn) (Q : A -> State -> Prop) E :
  hoare (E e) (raise e) Q E.
Proof. intros st H. exact H. Qed.

Lemma hoare_lift {A} (r : result A) (P : State -> Prop) :
  hoare P (lift r) (fun a st => r = Ok a /\ P st) (fun e st => r = Raise e /\ P st).
Proof. intros st H. unfold lift. destruct r; auto. Qed.

Lemma hoare_bind {A B} (m : M A) (k : A -> M B) P R Q E :
  hoare P m R E -> (forall a, hoare (R a) (k a) Q E) -> hoare P (bind m k) Q E.
Proof.
  intros Hm Hk st HP. unfold bind. specialize (Hm st HP).
  destruct (m st) as [[a|e] st']; [apply (Hk a st' Hm) | exact Hm].
Qed.

Lemma hoare_try_except {A} (body : M A) (handler : exn -> M A) P Q E1 E :
  hoare P body Q E1 -> (forall e, hoare (E1 e) (handler e) Q E) ->
  hoare P (try_except body handler) Q E.
Proof.
  intros Hb Hh st HP. unfold try_except. specialize (Hb st HP).
  destruct (body st) as [[a|e] st']; [exact Hb | apply (Hh e st' Hb)].
Qed.

Lemma hoare_conseq {A} (m : M A) (P P' : State -> Prop) (Q Q' : A -> State -> Prop)
      (E E' : exn -> State -> Prop) :
  hoare P' m Q' E' ->
  (forall st, P st -> P' st) ->
  (forall a st, Q' a st -> Q a st) ->
  (forall e st, E' e st -> E e st) ->
  hoare P m Q E.
Proof.
  intros Hm HP HQ HE st H. specialize (Hm st (HP st H)).
  destruct (m st) as [[a|e] st']; auto.
Qed.

Lemma returns_ret {A} (a : A) : returns (ret a) a.
Proof. intros st. now exists st. Qed.

Lemma returns_lift {A} (r : result A) (a : A) : r = Ok a -> returns (lift r) a.
Proof. intros -> st. now exists st. Qed.

Lemma returns_bind {A B} (m : M A) (k : A -> M B) a b :
  returns m a -> returns (k a) b -> returns (bind m k) b.
Proof.
  intros Hm Hk st. destruct (Hm st) as (st' & E). unfold bind. rewrite E.
  apply Hk.
Qed.

Lemma returns_logged {A} (op : M A) : returns (logged op) tt.
Proof.
  intros st. unfold logged, try_except, bind, ret.
  destruct (op st) as [[a|e] st']; eauto.
Qed.

Lemma returns_publish e : returns (publish e) tt.
Proof. intros st. eexists. reflexivity. Qed.

Lemma returns_update_progress env cid p s kw : returns (update_progress env cid p s kw) tt.
Proof.
  unfold update_progress. destruct (has_progress_callback env);
    [apply returns_publish | apply returns_ret].
Qed.

(** The inversion of a sequence that returned, and of one that raised. *)
Lemma bind_ok {A B} (m : M A) (k : A -> M B) st b st' :
  bind m k st = (Ok b, st') ->
  exists a st1, m st = (Ok a, st1) /\ k a st1 = (Ok b, st').
Proof.
  unfold bind. destruct (m st) as [[a|e] st1]; [eauto | discriminate].
Qed.

Lemma bind_raise {A B} (m : M A) (k : A -> M B) st e st' :
  bind m k st = (Raise e, st') ->
  m st = (Raise e, st')
  \/ exists a st1, m st = (Ok a, st1) /\ k a st1 = (Raise e, st').
Proof.
  unfold bind. destruct (m st) as [[a|e1] st1]; [eauto |].
  intros H. left. injection H as -> ->. reflexivity.
Qed.

End Rules.

(** ** The capability guard of the VLM pass *)

Section VlmGuard.

Import AIServices Pipeline.

Lemma text_in_no_capabilities (t : string) (l : list AIServiceCapability) :
  existsb (arg_eqb (Text t)) l = false.
Proof. induction l as [|c l IH]; [reflexivity | exact IH]. Qed.

(** No service supports a capability that is named by a [str]. *)
Lemma supports_text_false (s : AIService) (t : string) :
  supports_capability s (Text t) = false.
Proof. apply text_in_no_capabilities. Qed.

(** Hence [_process_with_vlm] returns [None] and leaves the state as it is. *)
Lemma process_with_vlm_skipped env cid fname st :
  _process_with_vlm env cid fname st = (Ok None, st).
Proof.
  unfold _process_with_vlm, try_except.
  destruct (negb (Py.truthy _)); [reflexivity|].
  unfold bind, lift.
  destruct (factory_get _ _) as [[s|]|e]; try reflexivity.
  rewrite supports_text_false. reflexivity.
Qed.

Lemma returns_process_with_vlm env cid fname :
  returns (_process_with_vlm env cid fname) None.
Proof. intros st. exists st. apply process_with_vlm_skipped. Qed.

End VlmGuard.

(** ** The handler of [convert_pdf] *)

Section Handler.

Import Pipeline.

Lemma convert_pdf_cases env cid fname st :
  match convert_pdf_body env cid fname st with
  | (Ok r, st1) => convert_pdf env cid fname st = (Ok r, st1)
  | (Raise e, st1) => convert_pdf env cid fname st = (Raise e, after_failure env cid e st1)
  end.
Proof.
  unfold convert_pdf, try_except.
  destruct (convert_pdf_body env cid fname st) as [[r|e] st1]; [reflexivity|].
  unfold after_failure, bind, logged, try_except, bind, db_update, on_connection,
    ret, raise, publish.
  destruct (sqlite_error env _) as [rejected|];
    [|destruct (Database.update_conversion_status _ _ _ _ _) as [b db']];
    destruct st1 as [db1 pub1]; simpl;
    (destruct (has_progress_callback env); simpl; [reflexivity|]);
    now rewrite app_nil_r.
Qed.

Lemma convert_pdf_ok env cid fname st r st' :
  convert_pdf env cid fname st = (Ok r, st') ->
  convert_pdf_body env cid fname st = (Ok r, st').
Proof.
  pose proof (convert_pdf_cases env cid fname st) as H.
  destruct (convert_pdf_body env cid fname st) as [[r1|e] st1]; rewrite H; [auto | discriminate].
Qed.

Lemma convert_pdf_raise env cid fname st e st' :
  convert_pdf env cid fname st = (Raise e, st') ->
  exists st1, convert_pdf_body env cid fname st = (Raise e, st1)
              /\ st' = after_failure env cid e st1.
Proof.
  pose proof (convert_pdf_cases env cid fname st) as H.
  destruct (convert_pdf_body env cid fname st) as [[r1|e1] st1]; rewrite H;
    [discriminate|].
  intros E. injection E as -> <-. eauto.
Qed.

End Handler.

(** ** The result of a conversion *)

(** C10.  Whenever a formatting provider id is configured, a conversion that
    returns reports [ai_enhanced = True], whatever the enhancement did: the
    field reflects the configuration, not the outcome of the AI call. *)
Theorem ai_enhanced_reflects_configuration :
  forall env cid fname st r st',
    Py.truthy (ConfigManager.get_setting (Pipeline.config env)
                 "active_services.formatting_provider_id" VNone) = true ->
    Pipeline.convert_pdf env cid fname st = (Ok r, st') ->
    Pipeline.ai_enhanced r = true.
Proof.
  intros env cid fname st r st' Hcfg H.
  apply convert_pdf_ok in H. unfold Pipeline.convert_pdf_body in H.
  repeat (first [ apply bind_ok in H as (? & ? & _ & H)
                | progress cbv zeta in H ]).
  unfold Pipeline.ret in H. injection H as <- _.
  simpl. rewrite Hcfg. apply orb_true_r.
Qed.

Lemma ai_enhanced_reflects_configuration_witness :
  exists r st',
    Pipeline.convert_pdf Scenarios.formatting_times_out "c-1" "report.pdf"
      Notions.empty_state = (Ok r, st')
    /\ Pipeline.markdown r = "raw text"
    /\ Pipeline.ai_enhanced r = true.
Proof.
  eexists _, _. split; [vm_compute; reflexivity|]. split; [reflexivity|].
  eapply (ai_enhanced_reflects_configuration Scenarios.formatting_times_out "c-1"
            "report.pdf" Notions.empty_state);
    [reflexivity | vm_compute; reflexivity].
Defined.

(** ** The degrade path of the AI enhancement *)

Section Degrade.

Import AIServices Pipeline Notions.

Lemma raises_lift {A} (e : exn) : raises (lift (@Raise A e)).
Proof. intros st. now exists e, st. Qed.

Lemma raises_bind {A B} (m : M A) (k : A -> M B) a :
  returns m a -> raises (k a) -> raises (bind m k).
Proof.
  intros Hm Hk st. destruct (Hm st) as (st' & E). unfold bind. rewrite E. apply Hk.
Qed.

Lemma raises_bind_first {A B} (m : M A) (k : A -> M B) :
  raises m -> raises (bind m k).
Proof.
  intros Hm st. destruct (Hm st) as (e & st' & E). unfold bind. rewrite E. eauto.
Qed.

Lemma returns_try_except {A} (body : M A) (handler : exn -> M A) a :
  returns body a -> returns (try_except body handler) a.
Proof.
  intros Hb st. destruct (Hb st) as (st' & E). unfold try_except. rewrite E. eauto.
Qed.

Lemma returns_try_except_handler {A} (body : M A) (handler : exn -> M A) a :
  raises body -> (forall e, returns (handler e) a) ->
  returns (try_except body handler) a.
Proof.
  intros Hb Hh st. destruct (Hb st) as (e & st' & E). unfold try_except. rewrite E.
  apply Hh.
Qed.

Lemma lstrip_whitespace_only (text : string) :
  whitespace_only text = true -> PyStr.lstrip text = EmptyString.
Proof.
  unfold whitespace_only. induction text as [|c text IH]; [reflexivity|].
  simpl. intros H. apply andb_prop in H as [Hc Ht]. rewrite Hc. now apply IH.
Qed.

Lemma strip_whitespace_only (text : string) :
  whitespace_only text = true -> PyStr.strip text = EmptyString.
Proof. intros H. unfold PyStr.strip. now rewrite lstrip_whitespace_only. Qed.

(** A failed formatting call gives no enhanced text. *)
Lemma enhance_fails env s text fname :
  formatting_fails (format_markdown env s text) ->
  _enhance_markdown_with_ai env s text fname = None.
Proof.
  unfold _enhance_markdown_with_ai, has_format_markdown, formatting_fails.
  destruct (format_markdown env s text) as [t|e]; [|reflexivity].
  intros H. rewrite (strip_whitespace_only _ H). simpl. now rewrite andb_false_r.
Qed.

(** Step 3 then returns the text it was given. *)
Lemma enhance_step_degrades env cid fname baseline :
  (forall s, factory_get (factory env)
               (ConfigManager.get_setting (config env)
                  "active_services.formatting_provider_id" VNone) = Ok (Some s) ->
             formatting_fails (format_markdown env s baseline)) ->
  returns (enhance_step env cid fname baseline) baseline.
Proof.
  intros Hfail. unfold enhance_step.
  destruct (Py.truthy _).
  2:{ eapply returns_bind; [apply returns_update_progress | apply returns_ret]. }
  destruct (factory_get _ _) as [[s|]|e] eqn:Hget.
  - apply returns_try_except.
    eapply returns_bind; [apply returns_update_progress|].
    eapply returns_bind; [apply returns_lift; reflexivity|]. cbv beta iota.
    destruct (is_available env s).
    + eapply returns_bind; [apply returns_update_progress|].
      rewrite (enhance_fails _ _ _ _ (Hfail s eq_refl)).
      eapply returns_bind; [apply returns_update_progress | apply returns_ret].
    + eapply returns_bind; [apply returns_update_progress | apply returns_ret].
  - apply returns_try_except.
    eapply returns_bind; [apply returns_update_progress|].
    eapply returns_bind; [apply returns_lift; reflexivity|]. cbv beta iota.
    eapply returns_bind; [apply returns_update_progress | apply returns_ret].
  - apply returns_try_except_handler.
    + eapply raises_bind; [apply returns_update_progress|].
      apply raises_bind_first, raises_lift.
    + intros e'. eapply returns_bind; [apply returns_update_progress | apply returns_ret].
Qed.

End Degrade.

(** C4.  On the traditional path with a formatting provider configured, when
    the provider's formatting call raises or returns an empty or
    white-space-only text, the conversion returns and its markdown is the
    baseline extraction. *)
Theorem formatting_failure_keeps_baseline :
  forall env cid fname st n size baseline pattern,
    Pipeline.pdf_page_count env = Ok n ->
    Pipeline.pdf_file_size env = Ok size ->
    Pipeline.to_markdown env = Ok baseline ->
    Py.truthy (ConfigManager.get_setting (Pipeline.config env)
                 "active_services.formatting_provider_id" VNone) = true ->
    (forall s,
        Pipeline.factory_get (Pipeline.factory env)
          (ConfigManager.get_setting (Pipeline.config env)
             "active_services.formatting_provider_id" VNone) = Ok (Some s) ->
        Notions.formatting_fails (Pipeline.format_markdown env s baseline)) ->
    ConfigManager.get_setting (Pipeline.config env) "app_settings.default_output_pattern"
      (VStr "YYYY-MM-DD-[OriginalFileName].md") = VStr pattern ->
    exists r st',
      Pipeline.convert_pdf env cid fname st = (Ok r, st')
      /\ Pipeline.markdown r = baseline
      /\ Pipeline.processing_method r = "traditional".
Proof.
  intros env cid fname st n size baseline pattern Hn Hsize Hmd Hcfg Hfail Hpat.
  assert (Hbody : exists r, returns (Pipeline.convert_pdf_body env cid fname) r
                            /\ Pipeline.markdown r = baseline
                            /\ Pipeline.processing_method r = "traditional").
  { eexists. split.
    - unfold Pipeline.convert_pdf_body.
      eapply returns_bind; [apply returns_lift, Hn|].
      eapply returns_bind; [apply returns_lift, Hsize|].
      eapply returns_bind; [apply returns_logged|].
      eapply returns_bind; [apply returns_update_progress|].
      eapply returns_bind; [apply returns_logged|].
      eapply returns_bind; [apply returns_process_with_vlm|].
      eapply returns_bind.
      { eapply returns_bind; [apply returns_update_progress|].
        eapply returns_bind; [apply returns_lift, Hmd|].
        eapply returns_bind; [apply returns_update_progress|].
        apply enhance_step_degrades, Hfail. }
      eapply returns_bind; [apply returns_update_progress|].
      cbv zeta. rewrite Hpat.
      eapply returns_bind; [apply returns_lift; reflexivity|].
      eapply returns_bind; [apply returns_update_progress|].
      eapply returns_bind; [apply returns_logged|].
      eapply returns_bind; [apply returns_update_progress|].
      apply returns_ret.
    - split; reflexivity. }
  destruct Hbody as (r & Hr & Hmarkdown & Hmethod).
  destruct (Hr st) as (st' & Hrun).
  exists r, st'. split; [|split; assumption].
  pose proof (convert_pdf_cases env cid fname st) as Hc. now rewrite Hrun in Hc.
Qed.

Lemma formatting_failure_keeps_baseline_witness :
  exists r st',
    Pipeline.convert_pdf Scenarios.formatting_times_out "c-1" "report.pdf"
      Notions.empty_state = (Ok r, st')
    /\ Pipeline.markdown r = "raw text"
    /\ Pipeline.processing_method r = "traditional".
Proof.
  apply (formatting_failure_keeps_baseline Scenarios.formatting_times_out "c-1"
           "report.pdf" Notions.empty_state 3 2048%Z "raw text"
           "YYYY-MM-DD-[OriginalFileName].md");
    try reflexivity.
  intros s Hs. vm_compute in Hs. injection Hs as <-. vm_compute. exact I.
Defined.

(** ** The VLM pass *)

Section Traditional.

Import Pipeline.

(** Every conversion that returns went the traditional way. *)
Lemma convert_pdf_traditional env cid fname st r st' :
  convert_pdf env cid fname st = (Ok r, st') ->
  processing_method r = "traditional" /\ vlm_provider r = VNone.
Proof.
  intros H. apply convert_pdf_ok in H. unfold convert_pdf_body in H.
  do 5 (apply bind_ok in H as (? & ? & _ & H)).
  apply bind_ok in H as (vlm_markdown & st6 & Hvlm & H).
  rewrite process_with_vlm_skipped in Hvlm. injection Hvlm as <- <-.
  repeat (first [ apply bind_ok in H as (? & ? & _ & H)
                | progress cbv zeta in H ]).
  unfold ret in H. injection H as <- _. split; reflexivity.
Qed.

End Traditional.

(** C5 (the code at the scenario of the claim).  [_process_with_vlm] returns
    [None] from every state and publishes nothing, so that every conversion
    that returns has taken the traditional path.  In the scenario of a
    three-page document whose second page fails, with a provider that is
    registered, declares [VLM_DIRECT] and is available, the page loop itself
    would collect the two other pages, but the conversion returns the
    baseline extraction. *)
Theorem vlm_pass_is_never_entered :
  (forall env cid fname st,
      Pipeline._process_with_vlm env cid fname st = (Ok None, st))
  /\ (forall env cid fname st r st',
         Pipeline.convert_pdf env cid fname st = (Ok r, st') ->
         Pipeline.processing_method r = "traditional")
  /\ exists s r st',
      AIServices.get_service (Pipeline.factory Scenarios.vlm_second_page_raises)
        "anthropic_claude_haiku" = Some s
      /\ AIServices.supports_capability s (AIServices.Member AIServices.VLM_DIRECT) = true
      /\ Pipeline.is_available Scenarios.vlm_second_page_raises s = true
      /\ fst (Pipeline.vlm_pages Scenarios.vlm_second_page_raises s "c-1" "scan.pdf" 3
                (seq 0 3) Notions.empty_state) = Ok ["page one"; "page three"]
      /\ Pipeline.convert_pdf Scenarios.vlm_second_page_raises "c-1" "scan.pdf"
           Notions.empty_state = (Ok r, st')
      /\ Pipeline.markdown r = "raw text"
      /\ Pipeline.processing_method r = "traditional"
      /\ Database.status <$> (Pipeline.db st' !! "c-1") = Some "completed"
      /\ Pipeline.markdown r
         <> PyStr.join Pipeline.PAGE_SEPARATOR ["page one"; "page three"].
Proof.
  split; [exact process_with_vlm_skipped|].
  split; [intros env cid fname st r st' H; apply (convert_pdf_traditional _ _ _ _ _ _ H)|].
  eexists _, _, _.
  split; [vm_compute; reflexivity|].
  split; [vm_compute; reflexivity|].
  split; [vm_compute; reflexivity|].
  split; [vm_compute; reflexivity|].
  split; [vm_compute; reflexivity|].
  split; [reflexivity|].
  split; [reflexivity|].
  split; [vm_compute; reflexivity|].
  vm_compute. discriminate.
Qed.

(** ** The published percentages *)

Section Progress.

Import AIServices Pipeline Notions.

Lemma nondecreasing_snoc (l : list Z) (p : Z) :
  nondecreasing l -> Forall (fun x => (x <= p)%Z) l -> nondecreasing (l ++ [p]).
Proof.
  induction l as [|x l IH]; intros Hl Hb; [exact I|].
  inversion Hb as [|? ? Hx Hb']; subst.
  destruct l as [|y l].
  - simpl. split; [exact Hx | exact I].
  - destruct Hl as [Hxy Hl]. split; [exact Hxy|]. now apply IH.
Qed.

Lemma upto_weaken pre hi hi' st : (hi <= hi')%Z -> upto pre hi st -> upto pre hi' st.
Proof.
  intros Hle (l & Hl & Hmono & Hb). exists l. repeat split; try assumption.
  eapply Forall_impl; [exact Hb|]. simpl. intros; lia.
Qed.

Lemma upto_publish pre hi e st :
  (hi <= pe_progress e)%Z -> upto pre hi st ->
  upto pre (pe_progress e) {| db := db st; published := published st ++ [e] |}.
Proof.
  intros Hle (l & Hl & Hmono & Hb). exists (l ++ [e]). simpl.
  rewrite Hl, <- app_assoc. split; [reflexivity|].
  unfold progress_values in *. rewrite map_app. simpl. split.
  - apply nondecreasing_snoc; [exact Hmono|].
    eapply Forall_impl; [exact Hb|]. simpl. intros; lia.
  - apply Forall_app. split.
    + eapply Forall_impl; [exact Hb|]. simpl. intros; lia.
    + constructor; [lia | constructor].
Qed.

Lemma steps_silent {A} pre lo hi (m : M A) :
  silent m -> (lo <= hi)%Z -> steps pre lo hi m.
Proof.
  intros Hs Hle st Hst. specialize (Hs st).
  assert (H : upto pre hi (snd (m st))).
  { destruct Hst as (l & Hl & Hrest). apply (upto_weaken pre lo); [exact Hle|].
    exists l. now rewrite Hs. }
  destruct (m st) as [[a|e] st']; exact H.
Qed.

Lemma steps_bind {A B} pre lo mid hi (m : M A) (k : A -> M B) :
  (mid <= hi)%Z -> steps pre lo mid m -> (forall a, steps pre mid hi (k a)) ->
  steps pre lo hi (bind m k).
Proof.
  intros Hle Hm Hk. unfold steps. eapply hoare_bind; [|exact Hk].
  eapply hoare_conseq; [exact Hm | auto | auto |].
  intros e st. now apply upto_weaken.
Qed.

Lemma steps_try_except {A} pre lo mid hi (body : M A) (handler : exn -> M A) :
  (mid <= hi)%Z -> steps pre lo mid body -> (forall e, steps pre mid hi (handler e)) ->
  steps pre lo hi (try_except body handler).
Proof.
  intros Hle Hb Hh. unfold steps. eapply hoare_try_except; [|exact Hh].
  eapply hoare_conseq; [exact Hb | auto | | auto].
  intros a st. now apply upto_weaken.
Qed.

Lemma steps_update_progress pre lo hi env cid p stage kw :
  (lo <= p)%Z -> (p <= hi)%Z -> steps pre lo hi (update_progress env cid p stage kw).
Proof.
  intros Hlo Hhi st Hst. unfold update_progress.
  destruct (has_progress_callback env); simpl.
  - apply (upto_weaken pre p); [exact Hhi|].
    now apply (upto_publish pre lo {| pe_conversion_id := cid; pe_progress := p;
                                      pe_stage := stage; pe_kwargs := kw |}).
  - apply (upto_weaken pre lo); [lia | exact Hst].
Qed.

Lemma silent_ret {A} (a : A) : silent (ret a).
Proof. intros st. reflexivity. Qed.

Lemma silent_lift {A} (r : result A) : silent (lift r).
Proof. intros st. reflexivity. Qed.

Lemma silent_logged_on_connection {A} error
      (run : Database.table -> result A * Database.table) :
  silent (logged (on_connection error run)).
Proof.
  intros st. unfold logged, try_except, bind, on_connection, ret.
  destruct error as [rejected|]; [reflexivity|].
  destruct (run (db st)) as [[a|e] db']; reflexivity.
Qed.

Lemma silent_logged_db_create env cid fname fsize pcount :
  silent (logged (db_create env cid fname fsize pcount)).
Proof. apply silent_logged_on_connection. Qed.

Lemma silent_logged_db_update env cid status msg kw :
  silent (logged (db_update env cid status msg kw)).
Proof. apply silent_logged_on_connection. Qed.

Lemma silent_process_with_vlm env cid fname : silent (_process_with_vlm env cid fname).
Proof. intros st. now rewrite process_with_vlm_skipped. Qed.

Ltac step_update := apply steps_update_progress; lia.
Ltac step_silent lem := apply steps_silent; [apply lem | lia].

Ltac step_ret := apply steps_silent; [apply silent_ret | lia].

Lemma steps_enhance_step pre env cid fname text :
  steps pre 40 85 (enhance_step env cid fname text).
Proof.
  unfold enhance_step. destruct (Py.truthy _).
  - apply (steps_try_except pre 40 85 85); [lia | |].
    + apply (steps_bind pre 40 50 85); [lia | step_update |]. intros _.
      apply (steps_bind pre 50 50 85); [lia | step_silent @silent_lift |].
      intros [s|].
      * destruct (is_available env s).
        -- apply (steps_bind pre 50 70 85); [lia | step_update |]. intros _.
           destruct (_enhance_markdown_with_ai env s text fname).
           ++ apply (steps_bind pre 70 85 85); [lia | step_update |]. intros _. step_ret.
           ++ apply (steps_bind pre 70 85 85); [lia | step_update |]. intros _. step_ret.
        -- apply (steps_bind pre 50 85 85); [lia | step_update |]. intros _. step_ret.
      * apply (steps_bind pre 50 85 85); [lia | step_update |]. intros _. step_ret.
    + intros e. apply (steps_bind pre 85 85 85); [lia | step_update |]. intros _. step_ret.
  - apply (steps_bind pre 40 85 85); [lia | step_update |]. intros _. step_ret.
Qed.

Lemma steps_convert_pdf_body pre env cid fname :
  steps pre 5 100 (convert_pdf_body env cid fname).
Proof.
  unfold convert_pdf_body.
  apply (steps_bind pre 5 5 100); [lia | step_silent @silent_lift |]. intros total_pages.
  apply (steps_bind pre 5 5 100); [lia | step_silent @silent_lift |]. intros file_size.
  apply (steps_bind pre 5 5 100); [lia | step_silent (silent_logged_db_create env) |].
  intros _.
  apply (steps_bind pre 5 5 100); [lia | step_update |]. intros _.
  apply (steps_bind pre 5 5 100); [lia | step_silent (silent_logged_db_update env) |].
  intros _.
  apply (steps_bind pre 5 5 100); [lia | step_silent silent_process_with_vlm |].
  intros vlm_markdown.
  apply (steps_bind pre 5 85 100); [lia | |].
  { destruct vlm_markdown as [text|].
    - apply (steps_bind pre 5 85 85); [lia | step_update |]. intros _. step_ret.
    - apply (steps_bind pre 5 10 85); [lia | step_update |]. intros _.
      apply (steps_bind pre 10 10 85); [lia | step_silent @silent_lift |]. intros md.
      apply (steps_bind pre 10 40 85); [lia | step_update |]. intros _.
      apply steps_enhance_step. }
  intros markdown_content.
  apply (steps_bind pre 85 90 100); [lia | step_update |]. intros _.
  cbv zeta.
  apply (steps_bind pre 90 90 100); [lia | step_silent @silent_lift |]. intros output_filename.
  apply (steps_bind pre 90 95 100); [lia | step_update |]. intros _.
  apply (steps_bind pre 95 95 100); [lia | step_silent (silent_logged_db_update env) |].
  intros _.
  apply (steps_bind pre 95 100 100); [lia | step_update |]. intros _.
  step_ret.
Qed.

End Progress.

(** C1 (as amended).  For an attempt that by its configuration does not
    enter the VLM pass (no VLM provider is configured, or the configured id
    names no registered service that declares the VLM capability), the
    percentages published never decrease up to the last entry before a
    terminal error entry, and through the last entry of an attempt that
    returns; the terminal error entry itself is published with the
    percentage 0. *)
Theorem progress_nondecreasing_until_error_entry :
  forall env cid fname st,
    Logic.without_vlm_pass env ->
    let '(out, st') := Pipeline.convert_pdf env cid fname st in
    exists added,
      Pipeline.published st' = Pipeline.published st ++ added
      /\ match out with
         | Ok _ => Notions.nondecreasing (Notions.progress_values added)
         | Raise e =>
             exists body,
               added = body ++ (if Pipeline.has_progress_callback env
                                then [Pipeline.error_entry cid e] else [])
               /\ Notions.nondecreasing (Notions.progress_values body)
               /\ Pipeline.pe_progress (Pipeline.error_entry cid e) = 0%Z
         end.
Proof.
  intros env cid fname st _.
  pose proof (convert_pdf_cases env cid fname st) as Hc.
  pose proof (steps_convert_pdf_body (Pipeline.published st) env cid fname st) as Hs.
  assert (H0 : upto (Pipeline.published st) 5 st).
  { exists []. rewrite app_nil_r. repeat split; constructor. }
  specialize (Hs H0).
  destruct (Pipeline.convert_pdf_body env cid fname st) as [[r|e] st1];
    rewrite Hc; destruct Hs as (l & Hl & Hmono & _).
  - exists l. split; assumption.
  - exists (l ++ (if Pipeline.has_progress_callback env
                  then [Pipeline.error_entry cid e] else [])).
    split.
    + simpl. rewrite Hl. now rewrite app_assoc.
    + exists l. repeat split. exact Hmono.
Qed.

Lemma progress_nondecreasing_until_error_entry_witness :
  Logic.without_vlm_pass Scenarios.plain_conversion
  /\ let '(out, st') := Pipeline.convert_pdf Scenarios.plain_conversion "c-1" "report.pdf"
                          Notions.empty_state in
     exists added,
       Pipeline.published st' = Pipeline.published Notions.empty_state ++ added
       /\ match out with
          | Ok _ => Notions.nondecreasing (Notions.progress_values added)
          | Raise e =>
              exists body,
                added = body ++ (if Pipeline.has_progress_callback Scenarios.plain_conversion
                                 then [Pipeline.error_entry "c-1" e] else [])
                /\ Notions.nondecreasing (Notions.progress_values body)
                /\ Pipeline.pe_progress (Pipeline.error_entry "c-1" e) = 0%Z
          end.
Proof.
  split; [left; reflexivity|].
  apply (progress_nondecreasing_until_error_entry Scenarios.plain_conversion "c-1"
           "report.pdf" Notions.empty_state).
  left. reflexivity.
Defined.

(** C1 (the claim as stated fails).  When the extraction raises, the attempt
    publishes 5, 10 and then the terminal error entry with 0. *)
Lemma progress_decreases_at_error_entry :
  let st' := snd (Pipeline.convert_pdf (Scenarios.extraction_raises true "boom")
                    "c-1" "scan.pdf" Notions.empty_state) in
  Notions.progress_values (Pipeline.published st') = [5; 10; 0]%Z
  /\ Pipeline.entry_status (Pipeline.pe_kwargs (List.last (Pipeline.published st')
                                                   (Pipeline.error_entry "" (Exn OtherException ""))))
     = Some "error"
  /\ ~ Notions.nondecreasing (Notions.progress_values (Pipeline.published st')).
Proof.
  vm_compute. split; [reflexivity|]. split; [reflexivity|].
  intros [_ [H _]]. apply H. reflexivity.
Qed.

(** The VLM pass behind its guard, for a registered provider that declares
    the VLM capability and whose call raises for every page: the pass
    publishes 20 and gives no text, and the traditional extraction that
    follows it in [convert_pdf] publishes 10. *)
Example vlm_pass_without_pages_then_extraction :
  let env := Scenarios.vlm_every_page_raises in
  exists s,
    AIServices.get_service (Pipeline.factory env) "anthropic_claude_haiku" = Some s
    /\ AIServices.supports_capability s (AIServices.Member AIServices.VLM_DIRECT) = true
    /\ fst (Pipeline.vlm_pass env s "c-1" "scan.pdf" Notions.empty_state) = Ok None
    /\ Notions.progress_values
         (Pipeline.published
            (snd (Pipeline.bind (Pipeline.vlm_pass env s "c-1" "scan.pdf")
                    (fun _ => Pipeline.update_progress env "c-1" 10
                                (Pipeline.Stage "Extracting text from PDF...") [])
                    Notions.empty_state)))
       = [20; 10]%Z.
Proof.
  eexists. split; [vm_compute; reflexivity|].
  split; [vm_compute; reflexivity|].
  split; vm_compute; reflexivity.
Qed.

(** ** The durable record of an attempt *)

Section Record.

Import AIServices Pipeline Notions.

Lemma db_silent_ret {A} (a : A) : db_silent (ret a).
Proof. intros st. reflexivity. Qed.

Lemma db_silent_lift {A} (r : result A) : db_silent (lift r).
Proof. intros st. reflexivity. Qed.

Lemma db_silent_update_progress env cid p stage kw :
  db_silent (update_progress env cid p stage kw).
Proof. intros st. unfold update_progress. now destruct (has_progress_callback env). Qed.

Lemma db_silent_bind {A B} (m : M A) (k : A -> M B) :
  db_silent m -> (forall a, db_silent (k a)) -> db_silent (bind m k).
Proof.
  intros Hm Hk st. unfold bind. specialize (Hm st).
  destruct (m st) as [[a|e] st1]; simpl in *; [|exact Hm].
  now rewrite Hk.
Qed.

Lemma db_silent_try_except {A} (body : M A) (handler : exn -> M A) :
  db_silent body -> (forall e, db_silent (handler e)) -> db_silent (try_except body handler).
Proof.
  intros Hb Hh st. unfold try_except. specialize (Hb st).
  destruct (body st) as [[a|e] st1]; simpl in *; [exact Hb|].
  now rewrite Hh.
Qed.

Lemma db_silent_process_with_vlm env cid fname : db_silent (_process_with_vlm env cid fname).
Proof. intros st. now rewrite process_with_vlm_skipped. Qed.

Lemma db_silent_enhance_step env cid fname text :
  db_silent (enhance_step env cid fname text).
Proof.
  unfold enhance_step.
  repeat first
    [ apply db_silent_ret | apply db_silent_lift | apply db_silent_update_progress
    | apply db_silent_bind; [|intros ?] | apply db_silent_try_except; [|intros ?]
    | match goal with
      | |- db_silent (if ?b then _ else _) => destruct b
      | |- db_silent (match ?o with Some _ => _ | None => _ end) => destruct o
      end ].
Qed.

(** Rules for computations that leave the table as it is. *)
Lemma hoare_db_silent {A} (m : M A) D :
  db_silent m -> hoare (on_db D) m (fun _ => on_db D) (fun _ => on_db D).
Proof.
  intros Hs st H. specialize (Hs st). unfold on_db in *.
  destruct (m st) as [[a|e] st']; simpl in Hs; now rewrite Hs.
Qed.

Lemma hoare_db_silent_returns {A} (m : M A) (a : A) D E :
  db_silent m -> returns m a -> hoare (on_db D) m (fun _ => on_db D) E.
Proof.
  intros Hs Hr st H. specialize (Hs st). destruct (Hr st) as (st' & Hrun).
  rewrite Hrun in *. unfold on_db in *. simpl in Hs. now rewrite Hs.
Qed.

(** The writes of [convert_pdf]. A write that the store rejects is logged
    and leaves the table as it was. *)
Lemma logged_rejected {A} (e : exn)
      (run : Database.table -> result A * Database.table) st :
  logged (on_connection (Some e) run) st = (Ok tt, st).
Proof. reflexivity. Qed.

Lemma hoare_create env cid fname fsize pcount E :
  sqlite_error env (Database.INSERT cid) = None ->
  hoare (on_db (no_row cid)) (logged (db_create env cid fname fsize pcount))
        (fun _ => on_db (pending_row cid)) E.
Proof.
  intros Haccepted st H. unfold on_db, no_row in H.
  unfold logged, try_except, bind, db_create, on_connection, ret,
    Database.create_conversion_record.
  rewrite Haccepted, H. simpl. unfold on_db, pending_row. simpl.
  eexists. split; [apply lookup_insert_eq | reflexivity].
Qed.

Lemma hoare_update_pending env cid status msg E :
  hoare (on_db (pending_row cid)) (logged (db_update env cid status msg []))
        (fun _ => on_db (pending_row cid)) E.
Proof.
  intros st (row & Hrow & Hout). unfold db_update.
  destruct (sqlite_error env _) as [rejected|].
  { rewrite logged_rejected. exists row. split; assumption. }
  unfold logged, try_except, bind, on_connection, ret, Database.update_conversion_status.
  rewrite Hrow. simpl. unfold on_db, pending_row. simpl.
  eexists. split; [apply lookup_insert_eq|].
  destruct msg; exact Hout.
Qed.

Lemma hoare_update_completed env cid out path E :
  sqlite_error env (Database.UPDATE_status cid "completed") = None ->
  hoare (on_db (pending_row cid))
        (logged (db_update env cid "completed" None
                   [Database.kw_output_filename (Some out);
                    Database.kw_final_markdown_path path]))
        (fun _ => on_db (completed_row cid)) E.
Proof.
  intros Haccepted st (row & Hrow & Hout).
  unfold logged, try_except, bind, db_update, on_connection, ret,
    Database.update_conversion_status.
  rewrite Haccepted, Hrow. simpl. unfold on_db, completed_row. simpl.
  eexists. split; [apply lookup_insert_eq|]. split; [reflexivity | discriminate].
Qed.

(** The table through the body of [convert_pdf], for an assertion [I] that
    the creation of the record establishes from [P0], that the update to
    [processing] keeps, and that the update to [completed] turns into [J]:
    the body ends in [J] when it returns; when it raises, [I] holds, or the
    document could not be opened and [P0] still holds. *)
Lemma convert_pdf_body_table env cid fname (P0 I J : gmap string Database.Row -> Prop) :
  (forall fsize pcount E,
      hoare (on_db P0) (logged (db_create env cid fname fsize pcount))
            (fun _ => on_db I) E) ->
  (forall E,
      hoare (on_db I) (logged (db_update env cid "processing" None []))
            (fun _ => on_db I) E) ->
  (forall out path E,
      hoare (on_db I)
            (logged (db_update env cid "completed" None
                       [Database.kw_output_filename (Some out);
                        Database.kw_final_markdown_path path]))
            (fun _ => on_db J) E) ->
  hoare (on_db P0) (convert_pdf_body env cid fname)
        (fun _ => on_db J)
        (fun _ => on_db (fun d => (not_opened env /\ P0 d) \/ I d)).
Proof.
  intros Hcreate Hprocessing Hcompleted.
  unfold convert_pdf_body.
  eapply hoare_bind.
  { eapply hoare_conseq; [apply (hoare_lift _ (on_db P0)) | auto | |].
    - intros a st H. exact H.
    - intros e st [Hr H]. left. split; [left; eauto | exact H]. }
  intros total_pages. cbv beta.
  eapply hoare_bind.
  { eapply hoare_conseq;
      [apply (hoare_lift _ (on_db P0)) | intros st [_ H]; exact H | |].
    - intros a st H. exact H.
    - intros e st [Hr H]. left. split; [right; eauto | exact H]. }
  intros file_size. cbv beta.
  eapply hoare_bind.
  { eapply hoare_conseq; [apply Hcreate | intros st [_ H]; exact H | | ];
      intros ? st H; exact H. }
  intros ?.
  assert (Hquiet : forall B (m : M B),
             db_silent m ->
             hoare (on_db I) m (fun _ => on_db I)
               (fun _ => on_db (fun d => (not_opened env /\ P0 d) \/ I d))).
  { intros B m Hm.
    eapply hoare_conseq; [exact (hoare_db_silent m I Hm) | | |].
    - intros st H. exact H.
    - intros b st H. exact H.
    - intros e st H. right. exact H. }
  eapply hoare_bind; [apply Hquiet, db_silent_update_progress|]. intros ?.
  eapply hoare_bind; [apply Hprocessing|]. intros ?.
  eapply hoare_bind; [apply Hquiet, db_silent_process_with_vlm|]. intros vlm_markdown.
  eapply hoare_bind.
  { apply Hquiet. destruct vlm_markdown.
    - apply db_silent_bind; [apply db_silent_update_progress | intros; apply db_silent_ret].
    - apply db_silent_bind; [apply db_silent_update_progress | intros ?].
      apply db_silent_bind; [apply db_silent_lift | intros md].
      apply db_silent_bind; [apply db_silent_update_progress | intros ?].
      apply db_silent_enhance_step. }
  intros markdown_content.
  eapply hoare_bind; [apply Hquiet, db_silent_update_progress|]. intros ?.
  cbv zeta.
  eapply hoare_bind; [apply Hquiet, db_silent_lift|]. intros output_filename.
  eapply hoare_bind; [apply Hquiet, db_silent_update_progress|]. intros ?.
  eapply hoare_bind; [apply Hcompleted|]. intros ?.
  eapply hoare_bind.
  { eapply hoare_db_silent_returns;
      [apply db_silent_update_progress | apply returns_update_progress]. }
  intros ?. intros st H. exact H.
Qed.

(** Under a conversion id without a row, and with a store that accepts the
    INSERT and the update to [completed]: a completed row when the body
    returns; when it raises, a row without output file name, or no row at all
    if the document could not be opened. The update to [processing] may be
    rejected. *)
Lemma convert_pdf_body_record env cid fname :
  sqlite_error env (Database.INSERT cid) = None ->
  sqlite_error env (Database.UPDATE_status cid "completed") = None ->
  hoare (on_db (no_row cid)) (convert_pdf_body env cid fname)
        (fun _ => on_db (completed_row cid))
        (fun _ => on_db (fun d => (not_opened env /\ no_row cid d) \/ pending_row cid d)).
Proof.
  intros Hinsert Hcompleted.
  apply convert_pdf_body_table; intros.
  - now apply hoare_create.
  - apply hoare_update_pending.
  - now apply hoare_update_completed.
Qed.

(** An INSERT that is accepted found no row and met no error. *)
Lemma db_create_accepted env cid fname fsize pcount st :
  fst (db_create env cid fname fsize pcount st) = Ok tt ->
  sqlite_error env (Database.INSERT cid) = None /\ db st !! cid = None.
Proof.
  unfold db_create, on_connection, Database.create_conversion_record.
  destruct (sqlite_error env _) as [rejected|]; [discriminate|].
  destruct (db st !! cid) as [row|]; [discriminate | auto].
Qed.

(** The row after the handler of [convert_pdf] has run. *)
Lemma after_failure_row env cid e st1 row :
  sqlite_error env (Database.UPDATE_status cid "failed") = None ->
  db st1 !! cid = Some row ->
  db (after_failure env cid e st1) !! cid
  = Some (Database.set_error_message (Some (exn_str e)) (Database.set_status "failed" row)).
Proof.
  intros Haccepted H. unfold after_failure, Database.update_conversion_status. simpl.
  rewrite Haccepted, H. simpl. apply lookup_insert_eq.
Qed.

(** A rejected update leaves the row as the body left it. *)
Lemma after_failure_rejected env cid e st1 rejected :
  sqlite_error env (Database.UPDATE_status cid "failed") = Some rejected ->
  db (after_failure env cid e st1) = db st1.
Proof. intros H. unfold after_failure. simpl. now rewrite H. Qed.

End Record.

(** C8 (as amended).  When the attempt creates its record and the store
    accepts the update that ends the attempt, the record that the attempt
    leaves has the status [completed] or [failed]: [completed] when
    [convert_pdf] returned and [failed] when it raised, and its
    [output_filename] is set exactly when the status is [completed].  The
    update to [processing] in between may be rejected. *)
Theorem final_status_and_output_filename :
  forall env cid fname st,
    Logic.creates_record env cid fname st ->
    Logic.accepts_final_update env cid ->
    let '(out, st') := Pipeline.convert_pdf env cid fname st in
    exists row,
      Pipeline.db st' !! cid = Some row
      /\ (Database.status row = "completed" \/ Database.status row = "failed")
      /\ (Database.output_filename row <> None <-> Database.status row = "completed")
      /\ match out with
         | Ok _ => Database.status row = "completed"
         | Raise _ => Database.status row = "failed"
         end.
Proof.
  intros env cid fname st (n & size & Hn & Hsize & Hcreate) [Hcompleted Hfailed].
  apply db_create_accepted in Hcreate as [Hinsert Hfresh].
  pose proof (convert_pdf_cases env cid fname st) as Hc.
  pose proof (convert_pdf_body_record env cid fname Hinsert Hcompleted st Hfresh) as Hb.
  destruct (Pipeline.convert_pdf_body env cid fname st) as [[r|e] st1]; rewrite Hc.
  - destruct Hb as (row & Hrow & Hstatus & Hout). exists row.
    split; [exact Hrow|]. split; [left; exact Hstatus|]. split; [tauto | exact Hstatus].
  - destruct Hb as [[Hno _] | (row & Hrow & Hout)].
    { destruct Hno as [[e' He']|[e' He']]; congruence. }
    eexists. split; [apply (after_failure_row _ _ _ _ _ Hfailed Hrow)|]. simpl.
    split; [right; reflexivity|]. split; [|reflexivity].
    rewrite Hout. split; [congruence | discriminate].
Qed.

Lemma final_status_and_output_filename_witness :
  Logic.creates_record Scenarios.formatting_times_out "c-1" "report.pdf" Notions.empty_state
  /\ Logic.accepts_final_update Scenarios.formatting_times_out "c-1"
  /\ let '(out, st') := Pipeline.convert_pdf Scenarios.formatting_times_out "c-1"
                          "report.pdf" Notions.empty_state in
     exists row,
       Pipeline.db st' !! "c-1" = Some row
       /\ (Database.status row = "completed" \/ Database.status row = "failed")
       /\ (Database.output_filename row <> None <-> Database.status row = "completed")
       /\ match out with
          | Ok _ => Database.status row = "completed"
          | Raise _ => Database.status row = "failed"
          end.
Proof.
  assert (Hcreates : Logic.creates_record Scenarios.formatting_times_out "c-1" "report.pdf"
                       Notions.empty_state).
  { exists 3, 2048%Z. repeat split; reflexivity. }
  assert (Haccepts : Logic.accepts_final_update Scenarios.formatting_times_out "c-1").
  { split; reflexivity. }
  split; [exact Hcreates|]. split; [exact Haccepts|].
  exact (final_status_and_output_filename Scenarios.formatting_times_out "c-1"
           "report.pdf" Notions.empty_state Hcreates Haccepts).
Defined.

(** C8 (the claim as stated fails).  A write that the store rejects is
    logged and the attempt goes on.  When the database is locked during the
    update to [completed], the conversion returns and leaves its record in
    [processing], without output file name; when it is locked during the
    INSERT, the conversion returns and leaves no record. *)
Lemma record_not_terminal_when_store_rejects :
  (exists r st' row,
      Pipeline.convert_pdf
        (Scenarios.store_rejects (Database.UPDATE_status "c-1" "completed")
           Scenarios.plain_conversion)
        "c-1" "report.pdf" Notions.empty_state = (Ok r, st')
      /\ Pipeline.db st' !! "c-1" = Some row
      /\ Database.status row = "processing"
      /\ Database.output_filename row = None
      /\ ~ (Database.status row = "completed" \/ Database.status row = "failed"))
  /\ (exists r st',
         Pipeline.convert_pdf
           (Scenarios.store_rejects (Database.INSERT "c-1") Scenarios.plain_conversion)
           "c-1" "report.pdf" Notions.empty_state = (Ok r, st')
         /\ Pipeline.db st' !! "c-1" = None).
Proof.
  split.
  - eexists _, _, _. split; [vm_compute; reflexivity|].
    split; [vm_compute; reflexivity|].
    split; [reflexivity|]. split; [reflexivity|].
    simpl. intros [H|H]; discriminate.
  - eexists _, _. split; vm_compute; reflexivity.
Qed.

(** C3 (as amended).  When the body of [convert_pdf] raises [e] and the
    conversion has its record by then, [convert_pdf] raises the same [e];
    the row is updated to [failed] with [str(e)] as its error message if the
    store accepts that update, and the table stays as it was if the store
    rejects it; if a progress callback was given, the terminal error entry
    is published last, and its [error] is [str(e)]. *)
Theorem failure_is_recorded_published_and_reraised :
  forall env cid fname st e st1,
    Pipeline.convert_pdf_body env cid fname st = (Raise e, st1) ->
    is_Some (Pipeline.db st1 !! cid) ->
    exists st',
      Pipeline.convert_pdf env cid fname st = (Raise e, st')
      /\ (Pipeline.sqlite_error env (Database.UPDATE_status cid "failed") = None ->
          exists row, Pipeline.db st' !! cid = Some row
                      /\ Database.status row = "failed"
                      /\ Database.error_message row = Some (exn_str e))
      /\ (forall rejected,
             Pipeline.sqlite_error env (Database.UPDATE_status cid "failed")
             = Some rejected ->
             Pipeline.db st' = Pipeline.db st1)
      /\ (Pipeline.has_progress_callback env = true ->
          Pipeline.published st' = Pipeline.published st1 ++ [Pipeline.error_entry cid e])
      /\ Pipeline.entry_status (Pipeline.pe_kwargs (Pipeline.error_entry cid e)) = Some "error"
      /\ Pipeline.entry_error (Pipeline.pe_kwargs (Pipeline.error_entry cid e))
         = Some (exn_str e).
Proof.
  intros env cid fname st e st1 Hbody [row Hrow].
  pose proof (convert_pdf_cases env cid fname st) as Hc. rewrite Hbody in Hc.
  exists (after_failure env cid e st1). split; [exact Hc|]. split.
  { intros Haccepted. eexists.
    split; [apply (after_failure_row _ _ _ _ _ Haccepted Hrow)|]. split; reflexivity. }
  split.
  { intros rejected Hrejected. apply (after_failure_rejected _ _ _ _ _ Hrejected). }
  split.
  { intros Hcb. unfold after_failure. simpl. now rewrite Hcb. }
  split; reflexivity.
Qed.

Lemma failure_is_recorded_published_and_reraised_witness :
  let env := Scenarios.extraction_raises true "boom" in
  let e := Exn OtherException "boom" in
  let st1 := snd (Pipeline.convert_pdf_body env "c-1" "scan.pdf" Notions.empty_state) in
  Pipeline.convert_pdf_body env "c-1" "scan.pdf" Notions.empty_state = (Raise e, st1)
  /\ is_Some (Pipeline.db st1 !! "c-1")
  /\ exists st',
      Pipeline.convert_pdf env "c-1" "scan.pdf" Notions.empty_state = (Raise e, st')
      /\ (Pipeline.sqlite_error env (Database.UPDATE_status "c-1" "failed") = None ->
          exists row, Pipeline.db st' !! "c-1" = Some row
                      /\ Database.status row = "failed"
                      /\ Database.error_message row = Some (exn_str e))
      /\ (forall rejected,
             Pipeline.sqlite_error env (Database.UPDATE_status "c-1" "failed")
             = Some rejected ->
             Pipeline.db st' = Pipeline.db st1)
      /\ (Pipeline.has_progress_callback env = true ->
          Pipeline.published st' = Pipeline.published st1 ++ [Pipeline.error_entry "c-1" e])
      /\ Pipeline.entry_status (Pipeline.pe_kwargs (Pipeline.error_entry "c-1" e))
         = Some "error"
      /\ Pipeline.entry_error (Pipeline.pe_kwargs (Pipeline.error_entry "c-1" e))
         = Some (exn_str e).
Proof.
  intros env e st1.
  assert (Hbody : Pipeline.convert_pdf_body env "c-1" "scan.pdf" Notions.empty_state
                  = (Raise e, st1)).
  { vm_compute. reflexivity. }
  assert (Hrow : is_Some (Pipeline.db st1 !! "c-1")).
  { eexists. vm_compute. reflexivity. }
  split; [exact Hbody|]. split; [exact Hrow|].
  exact (failure_is_recorded_published_and_reraised env "c-1" "scan.pdf"
           Notions.empty_state e st1 Hbody Hrow).
Defined.

(** C3 (the claim as stated fails).  When the database is locked during the
    update to [failed], the attempt raises and its record stays in
    [processing] without error message; without a progress callback nothing
    is published when the attempt raises; with one, an exception whose text
    is empty gives a terminal error entry with an empty [error]. *)
Lemma failure_unrecorded_or_entry_absent_or_empty :
  (exists e st' row,
      Pipeline.convert_pdf
        (Scenarios.store_rejects (Database.UPDATE_status "c-1" "failed")
           (Scenarios.extraction_raises true "boom"))
        "c-1" "scan.pdf" Notions.empty_state = (Raise e, st')
      /\ Pipeline.db st' !! "c-1" = Some row
      /\ Database.status row = "processing"
      /\ Database.error_message row = None)
  /\ Pipeline.published
       (snd (Pipeline.convert_pdf (Scenarios.extraction_raises false "boom") "c-1"
               "scan.pdf" Notions.empty_state)) = []
  /\ option_map (fun entry => Pipeline.entry_error (Pipeline.pe_kwargs entry))
       (List.last (map Some (Pipeline.published
                         (snd (Pipeline.convert_pdf (Scenarios.extraction_raises true "")
                                 "c-1" "scan.pdf" Notions.empty_state)))) None)
     = Some (Some "").
Proof.
  split.
  - eexists _, _, _. split; [vm_compute; reflexivity|].
    split; [vm_compute; reflexivity|]. split; reflexivity.
  - vm_compute. split; reflexivity.
Qed.

(** ** The provider registry *)

Section Registry.

Import AIServices Notions.

Lemma dict_find_set {A} (d : list (string * A)) k v : dict_find (dict_set d k v) k = Some v.
Proof.
  induction d as [|[k' v'] d IH]; simpl.
  - now rewrite String.eqb_refl.
  - destruct (String.eqb k' k) eqn:E; simpl; [now rewrite String.eqb_refl|].
    now rewrite E.
Qed.

Lemma in_values_set {A} (d : list (string * A)) k v : In v (map snd (dict_set d k v)).
Proof.
  induction d as [|[k' v'] d IH]; simpl; [now left|].
  destruct (String.eqb k' k); simpl; [now left | now right].
Qed.

Lemma dict_find_none_keys {A} (d : list (string * A)) k :
  dict_find d k = None -> ~ In k (map fst d).
Proof.
  induction d as [|[k' v'] d IH]; simpl; [tauto|].
  destruct (String.eqb k' k) eqn:E; [discriminate|].
  intros H [Hk|Hk]; [|now apply IH].
  subst. rewrite String.eqb_refl in E. discriminate.
Qed.

Lemma capability_eqb_refl c : capability_eqb c c = true.
Proof. destruct c; reflexivity. Qed.

Lemma supports_declared s c :
  In c (get_capabilities s) -> supports_capability s (Member c) = true.
Proof.
  intros H. unfold supports_capability. apply existsb_exists.
  exists c. split; [exact H | apply capability_eqb_refl].
Qed.

(** The two outcomes of a registration. *)
Lemma register_service_cases f pid cfg :
  (exists s, create_service_from_config pid cfg = Ok s
             /\ register_service f pid cfg
                = (true, {| _services := dict_set (_services f) pid s;
                            _config := dict_set (_config f) pid cfg |}))
  \/ register_service f pid cfg = (false, f).
Proof.
  unfold register_service, register_service_body, Py.rbind.
  destruct (Py.lower _) as [service_type|e]; [|now right].
  destruct (negb _); [now right|].
  destruct (create_service_from_config pid cfg) as [s|e]; [|now right].
  destruct (validate_config s) as [[|err errs]|e]; [|now right|now right].
  left. exists s. split; reflexivity.
Qed.

End Registry.

(** C6 (as amended).  [register_service] returns a boolean and never raises.
    When it returns true the provider is stored, and for every capability
    that it declares it is listed by [get_services_by_capability] exactly
    when it is enabled.  When it returns false the registry is unchanged, so
    that a provider id that was not registered is listed for no capability. *)
Theorem register_service_outcome :
  forall f pid cfg,
    let '(ok, f') := AIServices.register_service f pid cfg in
    if ok then
      exists s,
        AIServices.create_service_from_config pid cfg = Ok s
        /\ AIServices.get_service f' pid = Some s
        /\ forall c,
            In c (AIServices.get_capabilities s) ->
            (In s (AIServices.get_services_by_capability f' (AIServices.Member c))
             <-> Py.truthy (AIServices.enabled s) = true)
    else
      f' = f
      /\ (AIServices.get_service f pid = None ->
          forall capability, ~ In pid (Notions.listed_ids f' capability)).
Proof.
  intros f pid cfg.
  destruct (register_service_cases f pid cfg) as [(s & Hs & ->) | ->].
  - exists s. split; [exact Hs|]. split; [apply dict_find_set|].
    intros c Hc. unfold AIServices.get_services_by_capability. simpl.
    rewrite filter_In. split.
    + intros [_ H]. apply andb_prop in H. tauto.
    + intros He. split; [apply in_values_set|].
      now rewrite (supports_declared _ _ Hc), He.
  - split; [reflexivity|].
    intros Hnone capability Hin. apply (dict_find_none_keys _ _ Hnone).
    unfold Notions.listed_ids in Hin. apply in_map_iff in Hin as (entry & <- & Hentry).
    apply filter_In in Hentry as [Hentry _]. now apply in_map.
Qed.

(** C6 (the claim as stated fails).  A valid configuration with
    [enabled = False] is registered, declares HTR, and is listed for no
    capability; and a failed registration under an id that is registered
    leaves the earlier service listed. *)
Lemma disabled_provider_is_registered_but_not_listed :
  (let '(ok, f') := AIServices.register_service AIServices.new_factory
                      "anthropic_claude_haiku" (Scenarios.anthropic_claude_haiku false) in
   ok = true
   /\ (exists s, AIServices.get_service f' "anthropic_claude_haiku" = Some s
                 /\ In AIServices.HTR (AIServices.get_capabilities s))
   /\ forall c, AIServices.get_services_by_capability f' (AIServices.Member c) = [])
  /\ (let '(ok, f') := AIServices.register_service Scenarios.registry
                         "anthropic_claude_haiku" [("type", VStr "anthropic")] in
      ok = false
      /\ In "anthropic_claude_haiku"
            (Notions.listed_ids f' (AIServices.Member AIServices.HTR))).
Proof.
  split.
  - vm_compute. split; [reflexivity|]. split.
    + eexists. split; [reflexivity | now left].
    + intros c. destruct c; reflexivity.
  - vm_compute. split; [reflexivity | now left].
Qed.

(** ** Prompt rendering *)

Section Prompts.

Import PromptManager.

Variable complex_field : string -> kwargs -> result string.

(** The built-in formatting template renders with any content. *)
Lemma format_formatting_clean (content : string) :
  str_format complex_field TEXT_formatting_clean [("content", content)]
  = Ok (PyStr.replace "{content}" content TEXT_formatting_clean).
Proof. vm_compute. reflexivity. Qed.

Lemma fallback_returns (template_name : string) (variables : kwargs) :
  exists text, _get_fallback_prompt complex_field template_name variables = Ok text.
Proof.
  unfold _get_fallback_prompt.
  destruct (PyStr.startswith template_name "htr_"); [eauto|].
  destruct (PyStr.startswith template_name "formatting_");
    [rewrite format_formatting_clean; eauto|].
  destruct (PyStr.startswith template_name "vlm_"); eauto.
Qed.

Lemma format_never_KeyError (t : PromptTemplate) (variables : kwargs) e :
  fst (format complex_field t variables) = Raise e -> exn_class e <> KeyError.
Proof.
  unfold format. destruct (str_format _ _ _) as [text|e']; [discriminate|].
  destruct (exn_class e') eqn:E; simpl; try discriminate;
    intros H; injection H as <-; rewrite E; discriminate.
Qed.

End Prompts.

(** C7 (as amended).  [get_prompt] never raises [KeyError], the error of a
    missing variable.  A template name that is not in the manager is rendered
    by the built-in default that its prefix selects: [htr_default],
    [formatting_clean] with the content put in, [vlm_direct], or a fixed
    sentence for any other name. A template that is present and refers to a
    missing variable gives its content unchanged, no placeholder being
    substituted, and one warning is logged. *)
Theorem get_prompt_on_missing_name_or_variable :
  forall complex_field templates template_name variables,
    (forall e,
        fst (PromptManager.get_prompt complex_field templates template_name variables)
        = Raise e -> exn_class e <> KeyError)
    /\ (templates !! template_name = None ->
        fst (PromptManager.get_prompt complex_field templates template_name variables)
        = (if PyStr.startswith template_name "htr_"
           then Ok PromptManager.TEXT_htr_default
           else if PyStr.startswith template_name "formatting_"
           then Ok (PyStr.replace "{content}"
                      (match PromptManager.kwargs_get variables "content" with
                       | Some c => c
                       | None => "[No content provided]"
                       end)
                      PromptManager.TEXT_formatting_clean)
           else if PyStr.startswith template_name "vlm_"
           then Ok PromptManager.TEXT_vlm_direct
           else Ok "Please process this content appropriately."))
    /\ (forall template e,
           templates !! template_name = Some template ->
           PromptManager.str_format complex_field (PromptManager.content template) variables
           = Raise e ->
           exn_class e = KeyError ->
           PromptManager.get_prompt complex_field templates template_name variables
           = (Ok (PromptManager.content template),
              ["Missing variable " +:+ exn_str e +:+ " for template "
               +:+ PromptManager.name template])).
Proof.
  intros complex_field templates template_name variables. split; [|split].
  - intros e. unfold PromptManager.get_prompt.
    destruct (templates !! template_name) as [t|].
    + apply format_never_KeyError.
    + simpl. destruct (fallback_returns complex_field template_name variables) as (text & ->).
      discriminate.
  - intros Hnone. unfold PromptManager.get_prompt. rewrite Hnone. simpl.
    unfold PromptManager._get_fallback_prompt.
    now rewrite format_formatting_clean.
  - intros t e Ht He Hclass. unfold PromptManager.get_prompt, PromptManager.format.
    now rewrite Ht, He, Hclass.
Qed.

(** C7 (the claim as stated fails).  A template with the placeholders [x]
    and [y], rendered with a value for [x] only, gives its content with [x]
    still in place, not the text in which [x] is substituted. *)
Lemma missing_variable_leaves_all_placeholders :
  let templates : gmap string PromptManager.PromptTemplate :=
    <["greeting" := {| PromptManager.name := "greeting";
                       PromptManager.content := "A {x} B {y}";
                       PromptManager.category := "custom" |}]>
      PromptManager.default_templates in
  let complex_field := fun (_ : string) (_ : PromptManager.kwargs) => Ok "" in
  fst (PromptManager.get_prompt complex_field templates "greeting" [("x", "1")])
  = Ok "A {x} B {y}"
  /\ PromptManager.render_resolvable "A {x} B {y}" [("x", "1")] = "A 1 B {y}"
  /\ fst (PromptManager.get_prompt complex_field templates "greeting" [("x", "1")])
     <> Ok (PromptManager.render_resolvable "A {x} B {y}" [("x", "1")]).
Proof. vm_compute. repeat split; discriminate. Qed.

(** ** Retry *)

Section Retry.

Import Pipeline.

(** [ConversionPipeline.retry_conversion] raises [AttributeError] for every
    conversion that has a row, before it writes anything. *)
Lemma retry_conversion_raises env cid st row :
  sqlite_error env (Database.SELECT cid) = None ->
  db st !! cid = Some row ->
  Pipeline.retry_conversion env cid st
  = (Raise (Exn AttributeError "'dict' object has no attribute 'retry_count'"), st).
Proof.
  intros Hselect H. unfold Pipeline.retry_conversion, try_except, bind, db_get,
                      on_connection, Database.get_conversion_by_id.
  rewrite Hselect. simpl. rewrite H. destruct st. reflexivity.
Qed.

(** The route rejects a failed record whose retry count has reached the
    configured limit, and writes nothing. *)
Lemma route_rejects_at_limit env cid st row limit :
  sqlite_error env (Database.SELECT cid) = None ->
  db st !! cid = Some row ->
  Database.status row = "failed" ->
  ConfigManager.get_setting (config env) "app_settings.global_retry_attempts" (VInt 3)
  = VInt limit ->
  (limit <= Database.retry_count row)%Z ->
  App.retry_conversion env cid st
  = (App.CannotRetry400 "failed" (Database.retry_count row), st).
Proof.
  intros Hselect Hrow Hstatus Hlimit Hle.
  unfold App.retry_conversion, bind, db_get, on_connection,
    Database.get_conversion_by_id, lift.
  rewrite Hselect. simpl. rewrite Hrow, Hlimit.
  unfold Models.is_retryable, Database.from_dict. simpl. rewrite Hstatus. simpl.
  unfold Py.int_lt. simpl.
  assert (Hq : Qle_bool (inject_Z limit) (inject_Z (Database.retry_count row)) = true).
  { apply Qle_bool_iff. rewrite <- Zle_Qle. exact Hle. }
  rewrite Hq. destruct st. reflexivity.
Qed.

End Retry.

(** C2 (the code at a failed record).  For a failed record with the retry
    count 0, [retry_conversion] of the pipeline raises [AttributeError] and
    leaves the record as it is; the route reports a retry, with the retry
    count 1 and the status [retrying], not [processing].  A failed record at
    the configured limit of 2 is rejected by the route and unchanged. *)
Theorem retry_of_failed_record :
  let env := Scenarios.extraction_raises true "boom" in
  Pipeline.retry_conversion env "c-1" (Scenarios.table_with (Scenarios.failed_row 0))
  = (Raise (Exn AttributeError "'dict' object has no attribute 'retry_count'"),
     Scenarios.table_with (Scenarios.failed_row 0))
  /\ (let '(response, st') :=
        App.retry_conversion env "c-1" (Scenarios.table_with (Scenarios.failed_row 0)) in
      response = App.RetryInitiatedBasic200 1
      /\ Pipeline.db st' !! "c-1"
         = Some (Database.set_status "retrying" (Scenarios.failed_row 1)))
  /\ App.retry_conversion env "c-1" (Scenarios.table_with (Scenarios.failed_row 2))
     = (App.CannotRetry400 "failed" 2, Scenarios.table_with (Scenarios.failed_row 2)).
Proof. vm_compute. repeat split; reflexivity. Qed.
